(** * Transport backend: shipment tracking, shipment creation and quote requests

    A shallow embedding of [src/main.py] and [src/schemas.py]: the Python
    values the handlers manipulate, the shipment-document normalisation done
    by [track_shipment], the request models [QuoteRequest] and [NewShipment],
    and the three handlers, run against a document-store collaborator. *)

From Stdlib Require Import ZArith String Ascii List Lia DecimalString.
From Stdlib Require Import Floats.SpecFloat.
From stdpp Require Import gmap strings list fin_maps.

Set Warnings "-register-all".
Local Open Scope string_scope.

(** ** Python values *)

(** A [datetime.datetime] without time zone, as [datetime.utcnow()] and the
    store's decoder produce them. *)
Record datetime : Type := mkDatetime {
  dt_year : nat;
  dt_month : nat;
  dt_day : nat;
  dt_hour : nat;
  dt_minute : nat;
  dt_second : nat;
  dt_microsecond : nat
}.

(** The values found in request bodies and in stored documents.  A [float]
    is an IEEE-754 binary64 number; an [ObjectId] is carried by the 24
    hexadecimal digits [str] prints for it; a [dict] has string keys. *)
Inductive value : Type :=
| VNone
| VBool (b : bool)
| VInt (z : Z)
| VFloat (f : spec_float)
| VStr (s : string)
| VDatetime (dt : datetime)
| VObjectId (hex : string)
| VList (l : list value)
| VDict (d : gmap string value).

(** [type(v).__name__], as it appears in the interpreter's error messages. *)
Definition type_name (v : value) : string :=
  match v with
  | VNone => "NoneType"
  | VBool _ => "bool"
  | VInt _ => "int"
  | VFloat _ => "float"
  | VStr _ => "str"
  | VDatetime _ => "datetime.datetime"
  | VObjectId _ => "ObjectId"
  | VList _ => "list"
  | VDict _ => "dict"
  end.

(** [isinstance(v, datetime)] *)
Definition is_datetime (v : value) : bool :=
  match v with VDatetime _ => true | _ => false end.

(** [bool(v)]: the truth value that [not v] and [v or w] test. *)
Definition truthy (v : value) : bool :=
  match v with
  | VNone => false
  | VBool b => b
  | VInt z => negb (z =? 0)%Z
  | VFloat (S754_zero _) => false
  | VFloat _ => true
  | VStr s => negb (String.eqb s "")
  | VDatetime _ => true
  | VObjectId _ => true
  | VList l => match l with [] => false | _ :: _ => true end
  | VDict d => negb (Nat.eqb (size d) 0)
  end.

(** [a or b] *)
Definition py_or (a b : value) : value := if truthy a then a else b.

(** [d.get(key)]: the value stored under [key], [None] when there is none. *)
Definition dict_get (d : gmap string value) (key : string) : value :=
  default VNone (d !! key).

(** ** Rendering timestamps *)

Definition digit_char (n : nat) : ascii := ascii_of_nat (48 + n mod 10).

(** The [w] low decimal digits of [n] in front of [acc], most significant
    first: [%0wd] for a number of at most [w] digits. *)
Fixpoint zero_pad (w n : nat) (acc : string) : string :=
  match w with
  | O => acc
  | S w' => zero_pad w' (n / 10) (String (digit_char n) acc)
  end.

(** [dt.isoformat(sep)]: [YYYY-MM-DD], the separator, [HH:MM:SS], and the
    six-digit fraction when the microseconds are not zero. *)
Definition isoformat_sep (sep : ascii) (dt : datetime) : string :=
  zero_pad 4 (dt_year dt) (String "-"
  (zero_pad 2 (dt_month dt) (String "-"
  (zero_pad 2 (dt_day dt) (String sep
  (zero_pad 2 (dt_hour dt) (String ":"
  (zero_pad 2 (dt_minute dt) (String ":"
  (zero_pad 2 (dt_second dt)
     (match dt_microsecond dt with
      | O => ""
      | S _ => String "." (zero_pad 6 (dt_microsecond dt) "")
      end))))))))))).

(** [dt.isoformat()] *)
Definition isoformat (dt : datetime) : string := isoformat_sep "T" dt.

(** *** Recognising an ISO-8601 date and time *)

Definition is_digit (a : ascii) : bool :=
  let n := nat_of_ascii a in Nat.leb 48 n && Nat.leb n 57.

(** One position of a template: any decimal digit, or one given character. *)
Inductive slot : Type :=
| Digit
| Lit (a : ascii).

(** [strip_template t s] consumes from [s] a prefix of the shape [t] and
    returns what is left. *)
Fixpoint strip_template (t : list slot) (s : string) : option string :=
  match t, s with
  | [], _ => Some s
  | Digit :: t', String a s' =>
      if is_digit a then strip_template t' s' else None
  | Lit c :: t', String a s' =>
      if Ascii.eqb a c then strip_template t' s' else None
  | _ :: _, EmptyString => None
  end.

Definition iso_seconds_template : list slot :=
  [Digit; Digit; Digit; Digit; Lit "-"; Digit; Digit; Lit "-"; Digit; Digit;
   Lit "T";
   Digit; Digit; Lit ":"; Digit; Digit; Lit ":"; Digit; Digit]%char.

Definition iso_fraction_template : list slot :=
  [Lit "."; Digit; Digit; Digit; Digit; Digit; Digit]%char.

(** [YYYY-MM-DDTHH:MM:SS], optionally followed by [.ffffff]. *)
Definition is_iso8601 (s : string) : bool :=
  match strip_template iso_seconds_template s with
  | Some "" => true
  | Some rest =>
      match strip_template iso_fraction_template rest with
      | Some "" => true
      | _ => false
      end
  | None => false
  end.

(** ** Results and exceptions *)

(** An exception other than [HTTPException]: its class and [str(e)]. *)
Record py_error : Type := mkError {
  err_class : string;
  err_str : string
}.

(** What can be raised: an [HTTPException]; any other [Exception]; or a
    [BaseException] that is not an [Exception] ([SystemExit],
    [KeyboardInterrupt], [GeneratorExit]), which [except Exception] does
    not catch. *)
Inductive exn : Type :=
| HTTPException (status_code : Z) (detail : string)
| PyError (e : py_error)
| Interrupt (e : py_error).

(** [isinstance(e, Exception)] *)
Definition is_Exception (e : exn) : bool :=
  match e with
  | Interrupt _ => false
  | HTTPException _ _ | PyError _ => true
  end.

Inductive result (A : Type) : Type :=
| Ok (a : A)
| Raise (e : exn).
Arguments Ok {A} a.
Arguments Raise {A} e.

Definition rbind {A B} (r : result A) (k : A -> result B) : result B :=
  match r with
  | Ok a => k a
  | Raise e => Raise e
  end.

Declare Scope py_scope.
Delimit Scope py_scope with py.
Notation "x <~ c ;; k" := (rbind c (fun x => k))
  (at level 100, c at next level, right associativity) : py_scope.
Local Open Scope py_scope.

Definition AttributeError (v : value) (attr : string) : exn :=
  PyError (mkError "AttributeError"
    ("'" ++ type_name v ++ "' object has no attribute '" ++ attr ++ "'")).

Definition TypeError_not_iterable (v : value) : exn :=
  PyError (mkError "TypeError"
    ("'" ++ type_name v ++ "' object is not iterable")).

(** The items [for e in v] visits: the elements of a list, the characters of
    a string, the keys of a dict; anything else is not iterable. *)
Definition py_iter (v : value) : result (list value) :=
  match v with
  | VList l => Ok l
  | VStr s => Ok ((fun a => VStr (String a "")) <$> list_ascii_of_string s)
  | VDict d => Ok (VStr <$> (map_to_list d).*1)
  | _ => Raise (TypeError_not_iterable v)
  end.

(** ** The builtin [str] *)

(** Decimal rendering of an integer, as [str] prints an [int]. *)
Definition string_of_Z (z : Z) : string :=
  NilZero.string_of_int (Z.to_int z).

Section Normalizer.

(** [str] of a float, a list or a dict: the interpreter's [repr] of them,
    which no result below depends on. *)
Variable repr_other : value -> string.

(** [str(v)] *)
Definition py_str (v : value) : string :=
  match v with
  | VNone => "None"
  | VBool true => "True"
  | VBool false => "False"
  | VInt z => string_of_Z z
  | VStr s => s
  | VDatetime dt => isoformat_sep " " dt
  | VObjectId hex => hex
  | VFloat _ | VList _ | VDict _ => repr_other v
  end.

(** ** Normalising a shipment document ([track_shipment], lines 88-99) *)

(** [if isinstance(doc.get(key), datetime): doc[key] = doc[key].isoformat()] *)
Definition stringify_timestamp (doc : gmap string value) (key : string)
  : gmap string value :=
  match dict_get doc key with
  | VDatetime dt => <[key := VStr (isoformat dt)]> doc
  | _ => doc
  end.

(** The body of [for e in events]: [e.get] needs a dict; its ["timestamp"]
    is rewritten when it holds a [datetime]. *)
Definition normalize_event (e : value) : result value :=
  match e with
  | VDict d => Ok (VDict (stringify_timestamp d "timestamp"))
  | _ => Raise (AttributeError e "get")
  end.

(** The loop over [events], in order; it stops at the first exception. *)
Fixpoint normalize_events (events : list value) : result (list value) :=
  match events with
  | [] => Ok []
  | e :: rest =>
      e' <~ normalize_event e ;;
      rest' <~ normalize_events rest ;;
      Ok (e' :: rest')
  end.

(** Lines 90-93: the identifier, then the two top-level timestamps. *)
Definition stringify_top_level (doc : gmap string value)
  : gmap string value :=
  let doc := <["_id" := VStr (py_str (dict_get doc "_id"))]> doc in
  fold_left stringify_timestamp ["eta"; "last_update"] doc.

(** Lines 90-99 on the dict [doc].  The loop mutates the dicts that the list
    stored under ["events"] holds, so the document sees the rewritten
    events exactly when [doc.get("events")] is a non-empty list; [or []]
    replaces a missing, [None] or otherwise false value by a fresh empty
    list and leaves the document alone. *)
Definition normalize_doc (doc : gmap string value)
  : result (gmap string value) :=
  let doc := stringify_top_level doc in
  let events := py_or (dict_get doc "events") (VList []) in
  items <~ py_iter events ;;
  items' <~ normalize_events items ;;
  Ok (match events with
      | VList (_ :: _) => <["events" := VList items']> doc
      | _ => doc
      end).

(** The same on [doc = docs[0]], whatever the store returned: [doc.get]
    fails on anything but a dict. *)
Definition normalize (doc : value) : result value :=
  match doc with
  | VDict d => d' <~ normalize_doc d ;; Ok (VDict d')
  | _ => Raise (AttributeError doc "get")
  end.

End Normalizer.

(** ** Request models ([schemas.py], [main.py] lines 107-112) *)

(** The annotation of a model field. *)
Inductive annotation : Type :=
| TStr
| TEmailStr
| TFloat
| TDatetime
| TOptional (t : annotation).

(** [Field(...)]: required, or the default used when the input has no such
    key. *)
Inductive field_default : Type :=
| Required
| Default (v : value).

Record field_info : Type := Field {
  field_name : string;
  field_annotation : annotation;
  field_default_value : field_default;
  field_ge : option Z
}.

Definition QuoteRequest : list field_info :=
  [ Field "name" TStr Required None;
    Field "email" TEmailStr Required None;
    Field "phone" (TOptional TStr) (Default VNone) None;
    Field "company" (TOptional TStr) (Default VNone) None;
    Field "cargo_type" TStr Required None;
    Field "weight_kg" (TOptional TFloat) (Default VNone) (Some 0%Z);
    Field "dimensions_cm" (TOptional TStr) (Default VNone) None;
    Field "pickup_location" TStr Required None;
    Field "delivery_location" TStr Required None;
    Field "preferred_pickup_date" (TOptional TStr) (Default VNone) None;
    Field "preferred_delivery_date" (TOptional TStr) (Default VNone) None;
    Field "notes" (TOptional TStr) (Default VNone) None ].

Definition NewShipment : list field_info :=
  [ Field "tracking_number" TStr Required None;
    Field "origin" TStr Required None;
    Field "destination" TStr Required None;
    Field "status" TStr (Default (VStr "In Transit")) None;
    Field "eta" (TOptional TDatetime) (Default VNone) None ].

(** [float(z)]: the binary64 number nearest to [z], ties to even. *)
Definition float_of_int (z : Z) : spec_float :=
  binary_normalize 53 1024 z 0 false.

(** Whether [float(z)] is a number: an int beyond the range of floats has
    no float. *)
Definition int_fits_float (z : Z) : bool :=
  match float_of_int z with
  | S754_infinity _ => false
  | _ => true
  end.

(** [f >= bound] on floats: false when [f] is not a number. *)
Definition float_ge (f : spec_float) (bound : Z) : bool :=
  SFleb (float_of_int bound) f.

(** [f < 0] on floats. *)
Definition float_negative (f : spec_float) : bool :=
  SFltb f (S754_zero false).

(** A field that failed: its name and the kind of failure. *)
Definition field_error : Type := string * string.

(** What the model library brings and the sources do not spell out: the
    address check behind [EmailStr], giving the normalised address or [None]
    when the text is not an address; the conversion to [float] of an input
    that is neither a float nor an int (numeric text and the like); the
    conversion of an input to [datetime]. *)
Record model_library : Type := ModelLibrary {
  validate_email : string -> option string;
  coerce_float : value -> option spec_float;
  parse_datetime : value -> option datetime
}.

Section Validation.

Variable lib : model_library.

(** Validation of one input value against an annotation: the validated
    value, or the kind of failure.  [Optional] lets [None] through. *)
Fixpoint validate_annotation (t : annotation) (v : value) : string + value :=
  match t with
  | TOptional t' =>
      match v with
      | VNone => inr VNone
      | _ => validate_annotation t' v
      end
  | TStr =>
      match v with
      | VStr _ => inr v
      | _ => inl "string_type"
      end
  | TEmailStr =>
      match v with
      | VStr s =>
          match validate_email lib s with
          | Some s' => inr (VStr s')
          | None => inl "value_error"
          end
      | _ => inl "string_type"
      end
  | TFloat =>
      match v with
      | VFloat _ => inr v
      | VInt z =>
          if int_fits_float z then inr (VFloat (float_of_int z))
          else inl "float_type"
      | _ =>
          match coerce_float lib v with
          | Some f => inr (VFloat f)
          | None => inl "float_type"
          end
      end
  | TDatetime =>
      match parse_datetime lib v with
      | Some dt => inr (VDatetime dt)
      | None => inl "datetime_type"
      end
  end.

(** The [ge] constraint, which applies to a number and not to [None]. *)
Definition check_ge (ge : option Z) (v : value) : string + value :=
  match ge, v with
  | Some bound, VFloat f =>
      if float_ge f bound then inr v else inl "greater_than_equal"
  | _, _ => inr v
  end.

(** One field of the model from the input mapping. *)
Definition validate_field (body : gmap string value) (f : field_info)
  : field_error + value :=
  match body !! field_name f with
  | None =>
      match field_default_value f with
      | Default v => inr v
      | Required => inl (field_name f, "missing")
      end
  | Some v =>
      match validate_annotation (field_annotation f) v with
      | inl kind => inl (field_name f, kind)
      | inr v' =>
          match check_ge (field_ge f) v' with
          | inl kind => inl (field_name f, kind)
          | inr v'' => inr v''
          end
      end
  end.

(** All fields in declaration order: the failures of every field, and the
    validated values of the others. *)
Fixpoint validate_fields (schema : list field_info) (body : gmap string value)
  : list field_error * gmap string value :=
  match schema with
  | [] => ([], ∅)
  | f :: rest =>
      let '(errors, fields) := validate_fields rest body in
      match validate_field body f with
      | inl err => (err :: errors, fields)
      | inr v => (errors, <[field_name f := v]> fields)
      end
  end.

(** Building the model from [body]: the model's fields, or the list of
    failures.  An input that is not a mapping is itself the failure; keys
    the model does not declare are ignored. *)
Definition validate_model (schema : list field_info) (body : value)
  : list field_error + gmap string value :=
  match body with
  | VDict d =>
      match validate_fields schema d with
      | ([], fields) => inr fields
      | (errors, _) => inl errors
      end
  | _ => inl [("", "model_attributes_type")]
  end.

End Validation.

(** ** The document-store collaborator (module [database]) *)

(** A call made to the collaborator. *)
Inductive db_call : Type :=
| CreateDocument (collection : string) (data : gmap string value)
| GetDocuments (collection : string) (filter_dict : gmap string value)
    (limit : option nat).

(** The two functions [main.py] imports, over a store state [S]: each returns
    its result or raises, and leaves a new state. *)
Record persistence (S : Type) : Type := Persistence {
  create_document : string -> gmap string value -> S -> result value * S;
  get_documents :
    string -> gmap string value -> option nat -> S -> result (list value) * S
}.
Arguments create_document {S} p collection data st.
Arguments get_documents {S} p collection filter_dict limit st.

(** [str(e)] of a caught exception; an [HTTPException] prints its status and
    its detail. *)
Definition str_exn (e : exn) : string :=
  match e with
  | PyError p | Interrupt p => err_str p
  | HTTPException status detail => string_of_Z status ++ ": " ++ detail
  end.

(** What the framework answers: a status and a JSON body. *)
Record response : Type := JSONResponse {
  response_status : Z;
  response_content : value
}.

Definition error_content (err : field_error) : value :=
  VDict {[ "loc" := VStr (fst err); "type" := VStr (snd err) ]}.

(** The framework's answer to a body that fails validation: 422 with the
    list of field failures. *)
Definition validation_response (errors : list field_error) : response :=
  JSONResponse 422 (VDict {[ "detail" := VList (error_content <$> errors) ]}).

(** The framework's answer to what a handler did: 200 with the returned
    value, the status and detail of an [HTTPException], 500 for an
    [Exception] left uncaught.  An exception that is not an [Exception] is
    not answered by the framework, it goes on to the server; it is given the
    500 here for [respond] to be total, and nothing below is stated of a
    route in that case. *)
Definition respond (r : result value) : response :=
  match r with
  | Ok v => JSONResponse 200 v
  | Raise (HTTPException status detail) =>
      JSONResponse status (VDict {[ "detail" := VStr detail ]})
  | Raise (PyError _) | Raise (Interrupt _) =>
      JSONResponse 500 (VStr "Internal Server Error")
  end.

(** ** The handlers ([main.py]) *)

(** The world a request runs in: the store, the number of clock readings
    taken so far, and the calls made to the collaborator, oldest first. *)
Record world (S : Type) : Type := World {
  w_store : S;
  w_ticks : nat;
  w_calls : list db_call
}.
Arguments World {S} w_store w_ticks w_calls.
Arguments w_store {S} w.
Arguments w_ticks {S} w.
Arguments w_calls {S} w.

(** A handler body: it reads and changes the world, and returns or raises. *)
Definition M (S A : Type) : Type := world S -> result A * world S.

Definition ret {S A} (a : A) : M S A := fun w => (Ok a, w).

Definition raise {S A} (e : exn) : M S A := fun w => (Raise e, w).

Definition bind {S A B} (m : M S A) (k : A -> M S B) : M S B :=
  fun w =>
    match m w with
    | (Ok a, w') => k a w'
    | (Raise e, w') => (Raise e, w')
    end.

(** [try: body / except Exception as e: handler], with the clauses of the
    statement as the cases of [handler]: an exception that is not an
    [Exception] matches no clause and goes on. *)
Definition try_except {S A} (body : M S A) (handler : exn -> M S A) : M S A :=
  fun w =>
    match body w with
    | (Ok a, w') => (Ok a, w')
    | (Raise e, w') => if is_Exception e then handler e w' else (Raise e, w')
    end.

(** A computation that touches nothing. *)
Definition lift {S A} (r : result A) : M S A := fun w => (r, w).

Notation "x <- c ;; k" := (bind c (fun x => k))
  (at level 100, c at next level, right associativity) : py_scope.

(** [model.name] on a validated model, which holds every declared field. *)
Definition attr (model : gmap string value) (name : string) : value :=
  dict_get model name.

(** The shipment document of [create_shipment], lines 120-134, from the
    validated payload and the three values computed while it is built. *)
Definition shipment_document (payload : gmap string value) (eta : value)
    (last_update timestamp : datetime) : gmap string value :=
  {[ "tracking_number" := attr payload "tracking_number";
     "origin" := attr payload "origin";
     "destination" := attr payload "destination";
     "status" := attr payload "status";
     "eta" := eta;
     "last_update" := VDatetime last_update;
     "events" :=
       VList [ VDict {[ "timestamp" := VDatetime timestamp;
                        "location" := attr payload "origin";
                        "description" := VStr "Shipment created" ]} ] ]}.

Section Handlers.

Context {S : Type}.

(** The collaborator the handlers call. *)
Variable db : persistence S.

(** The successive readings of [datetime.utcnow()]. *)
Variable clock : nat -> datetime.

Variable repr_other : value -> string.
Variable lib : model_library.

(** [datetime.utcnow()] *)
Definition utcnow : M S datetime :=
  fun w => (Ok (clock (w_ticks w)),
            World (w_store w) (Datatypes.S (w_ticks w)) (w_calls w)).

(** [create_document(collection, data)] *)
Definition call_create_document (collection : string)
    (data : gmap string value) : M S value :=
  fun w =>
    let '(r, st) := create_document db collection data (w_store w) in
    (r, World st (w_ticks w) (w_calls w ++ [CreateDocument collection data])).

(** [get_documents(collection, filter_dict, limit=...)] *)
Definition call_get_documents (collection : string)
    (filter_dict : gmap string value) (limit : option nat)
  : M S (list value) :=
  fun w =>
    let '(r, st) := get_documents db collection filter_dict limit (w_store w) in
    (r, World st (w_ticks w)
          (w_calls w ++ [GetDocuments collection filter_dict limit])).

(** [create_quote], lines 72-78; the model is handed over as the mapping of
    its fields. *)
Definition create_quote (quote : gmap string value) : M S value :=
  try_except
    (inserted_id <- call_create_document "quoterequest" quote ;;
     ret (VDict {[ "ok" := VBool true; "id" := inserted_id ]}))
    (fun e => raise (HTTPException 500 (str_exn e))).

(** [track_shipment], lines 82-104.  [if not docs] and [docs[0]] are the
    two cases of the list. *)
Definition track_shipment (tracking_number : string) : M S value :=
  try_except
    (docs <- call_get_documents "shipment"
               {[ "tracking_number" := VStr tracking_number ]} (Some 1) ;;
     match docs with
     | [] => raise (HTTPException 404 "Tracking number not found")
     | doc :: _ =>
         doc' <- lift (normalize repr_other doc) ;;
         ret (VDict {[ "ok" := VBool true; "shipment" := doc' ]})
     end)
    (fun e =>
       match e with
       | HTTPException _ _ => raise e
       | _ => raise (HTTPException 500 (str_exn e))
       end).

(** [payload.eta or datetime.utcnow()]: the clock is read only when the
    left operand is false. *)
Definition eta_or_now (payload : gmap string value) : M S value :=
  if truthy (attr payload "eta") then ret (attr payload "eta")
  else now <- utcnow ;; ret (VDatetime now).

(** [create_shipment], lines 116-138.  The dict display evaluates its
    values in the order written: [eta], [last_update], the event. *)
Definition create_shipment (payload : gmap string value) : M S value :=
  try_except
    (eta <- eta_or_now payload ;;
     last_update <- utcnow ;;
     timestamp <- utcnow ;;
     inserted_id <- call_create_document "shipment"
                      (shipment_document payload eta last_update timestamp) ;;
     ret (VDict {[ "ok" := VBool true; "id" := inserted_id ]}))
    (fun e => raise (HTTPException 500 (str_exn e))).

(** *** The routes: the framework validates the body, runs the handler and
    turns its outcome into a response *)

Definition run_route (schema : list field_info)
    (handler : gmap string value -> M S value) (body : value)
  : world S -> response * world S :=
  fun w =>
    match validate_model lib schema body with
    | inl errors => (validation_response errors, w)
    | inr model => let '(r, w') := handler model w in (respond r, w')
    end.

(** [POST /api/quote] *)
Definition post_api_quote : value -> world S -> response * world S :=
  run_route QuoteRequest create_quote.

(** [POST /api/shipments] *)
Definition post_api_shipments : value -> world S -> response * world S :=
  run_route NewShipment create_shipment.

(** [GET /api/track/{tracking_number}] *)
Definition get_api_track (tracking_number : string)
  : world S -> response * world S :=
  fun w => let '(r, w') := track_shipment tracking_number w in (respond r, w').

End Handlers.

(** ** A document store *)

Module SpecStore.

(** Modelled from the spec: the document store behind module [database],
    schemaless records grouped into named collections, kept in insertion
    order.  [identifiers] are the opaque identifiers the store assigns, in
    the order it will assign them; [outage] is the unexpected failure every
    call raises while it is set. *)
Record store : Type := Store {
  collections : gmap string (list (gmap string value));
  inserted : nat;
  identifiers : nat -> value;
  outage : option exn
}.

Definition collection (st : store) (name : string)
  : list (gmap string value) :=
  default [] (collections st !! name).

(** Modelled from the spec: [insert_one(collection_name, document) ->
    identifier]; the collaborator assigns the identifier, stores the
    document under it and returns the identifier. *)
Definition insert_one (name : string) (document : gmap string value)
    (st : store) : result value * store :=
  match outage st with
  | Some e => (Raise e, st)
  | None =>
      let oid := identifiers st (inserted st) in
      (Ok oid,
       Store (<[name := (collection st name
                          ++ [<["_id" := oid]> document])%list]>
                (collections st))
             (Datatypes.S (inserted st)) (identifiers st) None)
  end.

(** Equality of a filter value and a stored value, for the scalar values
    a filter holds. *)
Definition scalar_eqb (want have : value) : bool :=
  match want, have with
  | VNone, VNone => true
  | VBool a, VBool b => Bool.eqb a b
  | VInt a, VInt b => (a =? b)%Z
  | VStr a, VStr b => String.eqb a b
  | VObjectId a, VObjectId b => String.eqb a b
  | _, _ => false
  end.

Definition matches (filter_dict document : gmap string value) : bool :=
  forallb (fun kv => match document !! fst kv with
                     | Some have => scalar_eqb (snd kv) have
                     | None => false
                     end)
          (map_to_list filter_dict).

(** Modelled from the spec: [find(collection_name, filter, limit) ->
    sequence of documents]; the documents of the collection whose fields
    equal the filter's, in insertion order, at most [limit] of them. *)
Definition find (name : string) (filter_dict : gmap string value)
    (limit : option nat) (st : store) : result (list value) * store :=
  match outage st with
  | Some e => (Raise e, st)
  | None =>
      let found := List.filter (matches filter_dict) (collection st name) in
      (Ok (VDict <$> match limit with
                     | Some n => take n found
                     | None => found
                     end),
       st)
  end.

Definition db : persistence store := Persistence store insert_one find.

Definition empty (identifiers : nat -> value) : store :=
  Store ∅ 0 identifiers None.

End SpecStore.

(** ** Predicates the properties are stated with *)

(** A value that is a string holding an ISO-8601 date and time. *)
Definition iso_string (v : value) : bool :=
  match v with
  | VStr s => is_iso8601 s
  | _ => false
  end.

Definition is_dict (v : value) : bool :=
  match v with VDict _ => true | _ => false end.

(** [e.get("timestamp")] of an entry of [events]. *)
Definition event_timestamp (e : value) : value :=
  match e with
  | VDict d => dict_get d "timestamp"
  | _ => VNone
  end.

(** A number below zero: a negative int, or a float that compares less
    than zero. *)
Definition negative_number (v : value) : bool :=
  match v with
  | VInt z => (z <? 0)%Z
  | VFloat f => float_negative f
  | _ => false
  end.

(** What normalisation may do to an entry of [events]: rewrite its
    ["timestamp"], and nothing else. *)
Definition event_frame (e e' : value) : Prop :=
  exists d d', e = VDict d /\ e' = VDict d' /\
    forall key, key <> "timestamp" -> d' !! key = d !! key.

(** What normalisation does to the timestamp of an entry of [events]. *)
Definition event_stringified (e e' : value) : Prop :=
  exists d d', e = VDict d /\ e' = VDict d' /\
    match dict_get d "timestamp" with
    | VDatetime dt =>
        d' !! "timestamp" = Some (VStr (isoformat dt))
        /\ is_iso8601 (isoformat dt) = true
    | _ => d' !! "timestamp" = d !! "timestamp"
    end.

(** What [except Exception as e: raise HTTPException(status_code=500,
    detail=str(e))] makes of an exception raised in its [try] body. *)
Definition as_server_error (e : exn) : exn :=
  if is_Exception e then HTTPException 500 (str_exn e) else e.

(** The same after the clause [except HTTPException: raise] of
    [track_shipment]. *)
Definition as_tracking_error (e : exn) : exn :=
  match e with
  | HTTPException _ _ => e
  | _ => as_server_error e
  end.

(** The value of [payload.eta or datetime.utcnow()] when the clock has been
    read [ticks] times, and the number of readings it takes. *)
Definition eta_value (clock : nat -> datetime) (payload : gmap string value)
    (ticks : nat) : value :=
  if truthy (attr payload "eta") then attr payload "eta"
  else VDatetime (clock ticks).

Definition eta_ticks (payload : gmap string value) : nat :=
  if truthy (attr payload "eta") then 0 else 1.

(** The document [create_shipment] hands to the collaborator when it starts
    with the clock read [ticks] times. *)
Definition built_shipment (clock : nat -> datetime)
    (payload : gmap string value) (ticks : nat) : gmap string value :=
  shipment_document payload (eta_value clock payload ticks)
    (clock (ticks + eta_ticks payload))
    (clock (S (ticks + eta_ticks payload))).

(** An [email] input the address check accepts. *)
Definition conforming_email (lib : model_library) (v : value) : bool :=
  match v with
  | VStr s =>
      match validate_email lib s with
      | Some _ => true
      | None => false
      end
  | _ => false
  end.

(** The fields [QuoteRequest] declares with [Field(...)] and no default. *)
Definition required_quote_fields : list string :=
  ["name"; "email"; "cargo_type"; "pickup_location"; "delivery_location"].

(** The [detail] an error response carries. *)
Definition response_detail (r : response) : option string :=
  match response_content r with
  | VDict d =>
      match d !! "detail" with
      | Some (VStr s) => Some s
      | _ => None
      end
  | _ => None
  end.

(** The [detail] of a raised [HTTPException]. *)
Definition raised_detail {A} (r : result A) : option string :=
  match r with
  | Raise (HTTPException _ detail) => Some detail
  | _ => None
  end.


(** ** Sample data *)

Module Sample.

Definition hex_digit (n : nat) : ascii :=
  match String.get (n mod 16) "0123456789abcdef" with
  | Some a => a
  | None => "0"%char
  end.

Fixpoint hex_pad (w n : nat) (acc : string) : string :=
  match w with
  | O => acc
  | S w' => hex_pad w' (n / 16) (String (hex_digit n) acc)
  end.

(** The identifiers of a store that numbers its documents and hands out
    [ObjectId]s. *)
Definition object_ids (n : nat) : value := VObjectId (hex_pad 24 n "").


(** A clock that advances one second per reading. *)
Definition clock (n : nat) : datetime := mkDatetime 2024 3 1 8 0 n 0.

(** [str] of floats, lists and dicts, for runs that print none. *)
Definition no_repr (v : value) : string := "".

(** A model library whose address check asks for an [@] and which converts
    nothing else. *)
Definition lib : model_library :=
  ModelLibrary
    (fun s => if existsb (Ascii.eqb "@") (list_ascii_of_string s)
              then Some s else None)
    (fun _ => None)
    (fun _ => None).

Definition shipment_body : gmap string value :=
  {[ "tracking_number" := VStr "TRK1";
     "origin" := VStr "NYC";
     "destination" := VStr "LA" ]}.

Definition quote_body : gmap string value :=
  {[ "name" := VStr "Ada";
     "email" := VStr "ada@example.com";
     "cargo_type" := VStr "pallets";
     "weight_kg" := VInt 120;
     "pickup_location" := VStr "NYC";
     "delivery_location" := VStr "LA" ]}.

(** The models the two bodies validate to. *)
Definition shipment_model : gmap string value :=
  {[ "tracking_number" := VStr "TRK1";
     "origin" := VStr "NYC";
     "destination" := VStr "LA";
     "status" := VStr "In Transit";
     "eta" := VNone ]}.

Definition quote_model : gmap string value :=
  {[ "name" := VStr "Ada";
     "email" := VStr "ada@example.com";
     "phone" := VNone;
     "company" := VNone;
     "cargo_type" := VStr "pallets";
     "weight_kg" := VFloat (float_of_int 120);
     "dimensions_cm" := VNone;
     "pickup_location" := VStr "NYC";
     "delivery_location" := VStr "LA";
     "preferred_pickup_date" := VNone;
     "preferred_delivery_date" := VNone;
     "notes" := VNone ]}.

Definition bad_email_body : gmap string value :=
  <["email" := VStr "not-an-email"]> quote_body.

(** The event [create_shipment] writes, and what normalisation makes of
    it. *)
Definition created_event : value :=
  VDict {[ "timestamp" := VDatetime (clock 2);
           "location" := VStr "NYC";
           "description" := VStr "Shipment created" ]}.

Definition created_event_normalized : value :=
  VDict {[ "timestamp" := VStr "2024-03-01T08:00:02";
           "location" := VStr "NYC";
           "description" := VStr "Shipment created" ]}.

(** An event written by another client of the store, with its time in
    seconds since the epoch. *)
Definition epoch_event : value :=
  VDict {[ "timestamp" := VInt 1709280000;
           "location" := VStr "Chicago";
           "description" := VStr "Arrived at hub" ]}.

(** A shipment as [create_shipment] stores it. *)
Definition stored_shipment : gmap string value :=
  {[ "_id" := VObjectId "65e1f0a2b3c4d5e6f7a8b9c0";
     "tracking_number" := VStr "TRK1";
     "origin" := VStr "NYC";
     "destination" := VStr "LA";
     "status" := VStr "In Transit";
     "eta" := VDatetime (clock 0);
     "last_update" := VDatetime (clock 1);
     "events" := VList [created_event] ]}.

Definition normalized_shipment : gmap string value :=
  {[ "_id" := VStr "65e1f0a2b3c4d5e6f7a8b9c0";
     "tracking_number" := VStr "TRK1";
     "origin" := VStr "NYC";
     "destination" := VStr "LA";
     "status" := VStr "In Transit";
     "eta" := VStr "2024-03-01T08:00:00";
     "last_update" := VStr "2024-03-01T08:00:01";
     "events" := VList [created_event_normalized] ]}.

(** The same shipment with the second event. *)
Definition mixed_events_shipment : gmap string value :=
  <["events" := VList [created_event; epoch_event]]> stored_shipment.

Definition normalized_mixed_events_shipment : gmap string value :=
  <["events" := VList [created_event_normalized; epoch_event]]>
    normalized_shipment.

(** A document without identifier, timestamps or events. *)
Definition bare_shipment : gmap string value :=
  {[ "tracking_number" := VStr "TRK2"; "status" := VStr "Delivered" ]}.

Definition normalized_bare_shipment : gmap string value :=
  <["_id" := VStr "None"]> bare_shipment.

(** A failure of the store with a long message. *)
Definition timeout_error : py_error :=
  mkError "ServerSelectionTimeoutError"
    "localhost:27017: [Errno 111] Connection refused, Timeout: 30s, Topology Description: <TopologyDescription id: 65e1f0a2, topology_type: Unknown, servers: []>".

(** A failure whose message is [n] characters long. *)
Definition long_error (n : nat) : py_error :=
  mkError "Exception" (string_of_list_ascii (repeat "x"%char n)).

(** A world whose store raises [p] at every call. *)
Definition failing_world (p : py_error) : world SpecStore.store :=
  World (SpecStore.Store ∅ 0 object_ids (Some (PyError p))) 0 [].

Definition empty_world : world SpecStore.store :=
  World (SpecStore.empty object_ids) 0 [].

End Sample.

(** ** The health check ([test_database], [main.py] lines 32-66) *)

(** The module-level [db] when it is not [None]: its [name] attribute, when
    it has one, and what listing its collections gives: the names, or the
    [Exception] the driver fails with. *)
Record database_handle : Type := DatabaseHandle {
  handle_name : option string;
  listing : list string + py_error
}.

(** [db.list_collection_names()]: it returns the names or raises the
    driver's failure, an [Exception].  An exception that is not one (the
    interpreter's exit, a keyboard interrupt) would end the request, and is
    not among the outcomes of this call. *)
Definition list_collection_names (handle : database_handle)
  : result (list string) :=
  match listing handle with
  | inl names => Ok names
  | inr p => Raise (PyError p)
  end.

(** [os.getenv(name)] used as a condition: set, and not empty. *)
Definition env_set (environ : string -> option string) (name : string)
  : bool :=
  match environ name with
  | Some s => negb (String.eqb s "")
  | None => false
  end.

(** A text is held as its UTF-8 bytes; a byte [10xxxxxx] continues the
    character begun before it. *)
Definition is_continuation (a : ascii) : bool :=
  let n := nat_of_ascii a in Nat.leb 128 n && Nat.ltb n 192.

(** [len(s)]: the number of characters. *)
Fixpoint py_len (s : string) : nat :=
  match s with
  | EmptyString => 0
  | String a s' => (if is_continuation a then 0 else 1) + py_len s'
  end.

(** [s[:n]]: the first [n] characters, each with all its bytes. *)
Fixpoint str_prefix (n : nat) (s : string) : string :=
  match s with
  | EmptyString => EmptyString
  | String a s' =>
      if is_continuation a then String a (str_prefix n s')
      else match n with
           | O => EmptyString
           | S n' => String a (str_prefix n' s')
           end
  end.

(** [test_database], lines 33-66.  Nothing in the outer [try] raises but the
    call to [list_collection_names], which has its own handler, so the outer
    [except] has no run. *)
Definition test_database (db : option database_handle)
    (environ : string -> option string) : gmap string value :=
  let response : gmap string value :=
    {[ "backend" := VStr "✅ Running";
       "database" := VStr "❌ Not Available";
       "database_url" := VNone;
       "database_name" := VNone;
       "connection_status" := VStr "Not Connected";
       "collections" := VList [] ]} in
  let response :=
    match db with
    | Some handle =>
        let response := <["database" := VStr "✅ Available"]> response in
        let response := <["database_url" := VStr "✅ Configured"]> response in
        let response :=
          <["database_name" :=
              VStr (match handle_name handle with
                    | Some name => name
                    | None => "✅ Connected"
                    end)]> response in
        let response := <["connection_status" := VStr "Connected"]> response in
        match list_collection_names handle with
        | Ok collections =>
            let response :=
              <["collections" := VList (VStr <$> take 10 collections)]>
                response in
            <["database" := VStr "✅ Connected & Working"]> response
        | Raise e =>
            <["database" :=
                VStr ("⚠️  Connected but Error: "
                      ++ str_prefix 50 (str_exn e))]> response
        end
    | None =>
        <["database" := VStr "⚠️  Available but not initialized"]> response
    end in
  let response :=
    <["database_url" :=
        VStr (if env_set environ "DATABASE_URL" then "✅ Set"
              else "❌ Not Set")]> response in
  <["database_name" :=
      VStr (if env_set environ "DATABASE_NAME" then "✅ Set"
            else "❌ Not Set")]> response.

(** ** The stored models ([schemas.py], lines 55-71) *)






(** ** More predicates *)

(** A document whose ["events"] the loop of [track_shipment] gets through:
    a value that is false, or a list of dicts. *)
Definition normalizable (doc : gmap string value) : bool :=
  let events := dict_get doc "events" in
  negb (truthy events)
  || match events with
     | VList entries => forallb is_dict entries
     | _ => false
     end.

(** An outcome the framework answers from the handler's own words: a value,
    or an [HTTPException]. *)
Definition handled {A} (r : result A) : bool :=
  match r with
  | Ok _ | Raise (HTTPException _ _) => true
  | Raise (PyError _) | Raise (Interrupt _) => false
  end.

(** The fields [NewShipment] declares without a default. *)
Definition required_shipment_fields : list string :=
  ["tracking_number"; "origin"; "destination"].



Module MoreSamples.

(** A database with twelve collections. *)
Definition twelve_names : list string :=
  ["c01"; "c02"; "c03"; "c04"; "c05"; "c06"; "c07"; "c08"; "c09"; "c10";
   "c11"; "c12"].

Definition working_handle : database_handle :=
  DatabaseHandle (Some "transport") (inl twelve_names).

Definition broken_handle : database_handle :=
  DatabaseHandle (Some "transport") (inr Sample.timeout_error).

Definition environ (name : string) : option string :=
  if String.eqb name "DATABASE_URL" then Some "mongodb://localhost:27017"
  else None.

(** A stored shipment whose events hold a number. *)
Definition broken_events_shipment : gmap string value :=
  <["events" := VList [Sample.created_event; VInt 7]]> Sample.stored_shipment.

(** A store that answers every query with the given documents. *)
Definition canned (docs : list value) : persistence unit :=
  Persistence unit
    (fun _ _ st => (Ok (VStr "id"), st))
    (fun _ _ _ st => (Ok docs, st)).

(** A store that raises the given exception at every call. *)
Definition raising (e : exn) : persistence unit :=
  Persistence unit
    (fun _ _ st => (Raise e, st))
    (fun _ _ _ st => (Raise e, st)).

Definition start : world unit := World tt 0 [].

(** A body with a status and an eta, and a model library that reads the
    eta. *)
Definition delivered_body : gmap string value :=
  <["status" := VStr "Delivered"]>
    (<["eta" := VStr "2024-03-05T12:00:00"]> Sample.shipment_body).

Definition eta_lib : model_library :=
  ModelLibrary (validate_email Sample.lib) (coerce_float Sample.lib)
    (fun v => match v with
              | VStr "2024-03-05T12:00:00" =>
                  Some (mkDatetime 2024 3 5 12 0 0 0)
              | _ => None
              end).

Definition delivered_model : gmap string value :=
  <["status" := VStr "Delivered"]>
    (<["eta" := VDatetime (mkDatetime 2024 3 5 12 0 0 0)]>
       Sample.shipment_model).

End MoreSamples.

(** * Properties *)

(** An equation between closed terms, settled by evaluating both sides. *)
Ltac by_evaluation :=
  lazymatch goal with
  | |- @eq ?T _ ?rhs => vm_cast_no_check (@eq_refl T rhs)
  end.

(** ** Timestamps print as ISO-8601 *)

Lemma is_digit_digit_char n : is_digit (digit_char n) = true.
Proof.
  unfold is_digit, digit_char.
  rewrite nat_ascii_embedding.
  - pose proof (Nat.mod_upper_bound n 10 ltac:(lia)) as Hlt.
    apply andb_true_iff; split; apply Nat.leb_le; lia.
  - pose proof (Nat.mod_upper_bound n 10 ltac:(lia)). lia.
Qed.

Lemma strip_digit t n s :
  strip_template (Digit :: t) (String (digit_char n) s) = strip_template t s.
Proof. cbn [strip_template]. now rewrite is_digit_digit_char. Qed.

Lemma strip_lit t a s :
  strip_template (Lit a :: t) (String a s) = strip_template t s.
Proof. cbn [strip_template]. now rewrite Ascii.eqb_refl. Qed.

Lemma isoformat_iso8601 dt : is_iso8601 (isoformat dt) = true.
Proof.
  unfold is_iso8601, isoformat, isoformat_sep, iso_seconds_template.
  cbn [zero_pad].
  rewrite !strip_digit, strip_lit, !strip_digit, strip_lit, !strip_digit,
    strip_lit, !strip_digit, strip_lit, !strip_digit, strip_lit, !strip_digit.
  cbn [strip_template].
  destruct (dt_microsecond dt) as [|us]; [reflexivity|].
  unfold iso_fraction_template. cbn [zero_pad].
  rewrite strip_lit, !strip_digit. reflexivity.
Qed.

(** ** Dictionaries *)

Lemma dict_get_insert_eq (d : gmap string value) key v :
  dict_get (<[key := v]> d) key = v.
Proof. unfold dict_get. now rewrite lookup_insert_eq. Qed.

Lemma dict_get_insert_ne (d : gmap string value) key key' v :
  key <> key' -> dict_get (<[key := v]> d) key' = dict_get d key'.
Proof. intros Hne. unfold dict_get. now rewrite lookup_insert_ne. Qed.

Lemma dict_get_Some (d : gmap string value) key v :
  d !! key = Some v -> dict_get d key = v.
Proof. intros H. unfold dict_get. now rewrite H. Qed.

(** ** One timestamp field *)

Lemma stringify_timestamp_lookup_ne doc key key' :
  key <> key' -> stringify_timestamp doc key !! key' = doc !! key'.
Proof.
  intros Hne. unfold stringify_timestamp.
  destruct (dict_get doc key); try reflexivity.
  now apply lookup_insert_ne.
Qed.

Lemma stringify_timestamp_get_ne doc key key' :
  key <> key' -> dict_get (stringify_timestamp doc key) key' = dict_get doc key'.
Proof.
  intros Hne. unfold dict_get.
  now rewrite stringify_timestamp_lookup_ne.
Qed.

Lemma stringify_timestamp_lookup_eq doc key :
  stringify_timestamp doc key !! key
  = match dict_get doc key with
    | VDatetime dt => Some (VStr (isoformat dt))
    | _ => doc !! key
    end.
Proof.
  unfold stringify_timestamp.
  destruct (dict_get doc key); try reflexivity. apply lookup_insert_eq.
Qed.

Lemma stringify_timestamp_native doc key dt :
  doc !! key = Some (VDatetime dt) ->
  stringify_timestamp doc key !! key = Some (VStr (isoformat dt)).
Proof.
  intros H. unfold stringify_timestamp.
  rewrite (dict_get_Some _ _ _ H). apply lookup_insert_eq.
Qed.

Lemma stringify_timestamp_other doc key :
  is_datetime (dict_get doc key) = false -> stringify_timestamp doc key = doc.
Proof.
  unfold stringify_timestamp. now destruct (dict_get doc key).
Qed.

Lemma stringify_timestamp_not_native doc key :
  is_datetime (dict_get (stringify_timestamp doc key) key) = false.
Proof.
  unfold stringify_timestamp.
  destruct (dict_get doc key) eqn:E; rewrite ?E; try reflexivity.
  now rewrite dict_get_insert_eq.
Qed.

Lemma stringify_timestamp_idempotent doc key :
  stringify_timestamp (stringify_timestamp doc key) key
  = stringify_timestamp doc key.
Proof. apply stringify_timestamp_other, stringify_timestamp_not_native. Qed.

(** ** The loop over the events *)

Lemma normalize_event_Ok e e' :
  normalize_event e = Ok e' ->
  exists d, e = VDict d /\ e' = VDict (stringify_timestamp d "timestamp").
Proof.
  destruct e; simpl; intros H; inversion H; subst. eauto.
Qed.

Lemma normalize_events_Ok events events' :
  normalize_events events = Ok events' ->
  Forall2 (fun e e' => normalize_event e = Ok e') events events'.
Proof.
  revert events'. induction events as [|e rest IH]; simpl; intros events' H.
  - inversion H. constructor.
  - destruct (normalize_event e) as [e1|] eqn:He; simpl in H; [|discriminate].
    destruct (normalize_events rest) as [rest1|] eqn:Hr; simpl in H; [|discriminate].
    inversion H; subst. constructor; auto.
Qed.

Lemma normalize_events_dicts events :
  Forall (fun e => is_dict e = true) events ->
  exists events', normalize_events events = Ok events'.
Proof.
  induction 1 as [|e rest He _ [rest' IH]]; simpl; [eauto|].
  destruct e; try discriminate. simpl. rewrite IH. simpl. eauto.
Qed.

Lemma normalize_events_fixed events events' :
  normalize_events events = Ok events' ->
  normalize_events events' = Ok events'.
Proof.
  intros H. apply normalize_events_Ok in H.
  induction H as [|e e' rest rest' He _ IH]; simpl; [reflexivity|].
  apply normalize_event_Ok in He as (d & -> & ->). simpl.
  rewrite stringify_timestamp_idempotent, IH. reflexivity.
Qed.

Lemma normalize_events_nonempty events events' :
  normalize_events events = Ok events' -> events <> [] -> events' <> [].
Proof.
  intros H Hne. apply normalize_events_Ok in H.
  destruct H; [congruence|discriminate].
Qed.

(** A truthy string or dict makes the loop fail at its first item, a string;
    the other values that are not lists cannot be iterated at all. *)
Lemma events_loop_Ok v items' :
  truthy v = true ->
  rbind (py_iter v) normalize_events = Ok items' ->
  exists items, v = VList items /\ items <> [] /\ normalize_events items = Ok items'.
Proof.
  intros Ht H. destruct v; simpl in H; try discriminate.
  - destruct s as [|a s]; [discriminate|]. simpl in H. discriminate.
  - exists l. simpl in Ht. destruct l; [discriminate|].
    split; [reflexivity|]. split; [discriminate|exact H].
  - simpl in Ht. destruct (map_to_list d) as [|[k x] rest] eqn:E.
    + apply map_to_list_empty_iff in E. subst. rewrite map_size_empty in Ht. discriminate.
    + simpl in H. discriminate.
Qed.

Section NormalizerProperties.

Variable repr_other : value -> string.


(** *** The top-level fields *)

Lemma stringify_top_level_id doc :
  stringify_top_level repr_other doc !! "_id"
  = Some (VStr (py_str repr_other (dict_get doc "_id"))).
Proof.
  unfold stringify_top_level. cbn [fold_left].
  rewrite !stringify_timestamp_lookup_ne by done.
  apply lookup_insert_eq.
Qed.

Lemma stringify_top_level_frame doc key :
  key <> "_id" -> key <> "eta" -> key <> "last_update" ->
  stringify_top_level repr_other doc !! key = doc !! key.
Proof.
  intros H1 H2 H3. unfold stringify_top_level. cbn [fold_left].
  rewrite !stringify_timestamp_lookup_ne by done.
  now apply lookup_insert_ne.
Qed.

Lemma stringify_top_level_eta doc :
  stringify_top_level repr_other doc !! "eta" = stringify_timestamp doc "eta" !! "eta".
Proof.
  unfold stringify_top_level. cbn [fold_left].
  rewrite stringify_timestamp_lookup_ne by done.
  rewrite !stringify_timestamp_lookup_eq.
  now rewrite dict_get_insert_ne, lookup_insert_ne by done.
Qed.

Lemma stringify_top_level_last_update doc :
  stringify_top_level repr_other doc !! "last_update"
  = stringify_timestamp doc "last_update" !! "last_update".
Proof.
  unfold stringify_top_level. cbn [fold_left].
  rewrite !stringify_timestamp_lookup_eq.
  rewrite stringify_timestamp_get_ne, stringify_timestamp_lookup_ne by done.
  now rewrite dict_get_insert_ne, lookup_insert_ne by done.
Qed.

(** A document whose identifier is a string and whose two timestamps are
    not native is left alone. *)
Lemma stringify_top_level_fixed doc s :
  doc !! "_id" = Some (VStr s) ->
  is_datetime (dict_get doc "eta") = false ->
  is_datetime (dict_get doc "last_update") = false ->
  stringify_top_level repr_other doc = doc.
Proof.
  intros Hid He Hl. unfold stringify_top_level.
  rewrite (dict_get_Some _ _ _ Hid). cbn [py_str].
  rewrite (insert_id _ _ _ Hid). cbn [fold_left].
  rewrite (stringify_timestamp_other doc "eta") by exact He.
  now apply stringify_timestamp_other.
Qed.

Lemma stringify_top_level_not_native doc :
  is_datetime (dict_get (stringify_top_level repr_other doc) "eta") = false
  /\ is_datetime (dict_get (stringify_top_level repr_other doc) "last_update") = false.
Proof.
  unfold dict_get.
  rewrite stringify_top_level_eta, stringify_top_level_last_update.
  split; apply stringify_timestamp_not_native.
Qed.

Lemma stringify_top_level_idempotent doc :
  stringify_top_level repr_other (stringify_top_level repr_other doc)
  = stringify_top_level repr_other doc.
Proof.
  destruct (stringify_top_level_not_native doc).
  eapply stringify_top_level_fixed; eauto using stringify_top_level_id.
Qed.

(** *** The whole normalisation, case by case *)

Lemma normalize_doc_Ok doc doc' :
  normalize_doc repr_other doc = Ok doc' ->
  (truthy (dict_get (stringify_top_level repr_other doc) "events") = false
   /\ doc' = stringify_top_level repr_other doc)
  \/ (exists items items',
        stringify_top_level repr_other doc !! "events" = Some (VList items)
        /\ items <> []
        /\ normalize_events items = Ok items'
        /\ doc' = <["events" := VList items']> (stringify_top_level repr_other doc)).
Proof.
  unfold normalize_doc, py_or.
  destruct (truthy (dict_get (stringify_top_level repr_other doc) "events")) eqn:Ht.
  - intros H. right.
    destruct (rbind (py_iter (dict_get (stringify_top_level repr_other doc)
                                       "events"))
                normalize_events) as [items'|] eqn:Hloop.
    + destruct (events_loop_Ok _ _ Ht Hloop) as (items & Hv & Hne & Hev).
      exists items, items'. rewrite Hv in H. simpl in H. rewrite Hev in H.
      simpl in H. destruct items; [congruence|]. inversion H; subst.
      repeat split; auto.
      unfold dict_get in Hv.
      destruct (stringify_top_level repr_other doc !! "events"); simpl in Hv; congruence.
    + unfold rbind in Hloop, H.
      destruct (py_iter _); [|discriminate].
      destruct (normalize_events _); discriminate.
  - simpl. intros H. inversion H. left. auto.
Qed.

Lemma normalize_doc_falsy doc :
  truthy (dict_get (stringify_top_level repr_other doc) "events") = false ->
  normalize_doc repr_other doc = Ok (stringify_top_level repr_other doc).
Proof. intros Ht. unfold normalize_doc, py_or. now rewrite Ht. Qed.

Lemma normalize_doc_list doc items items' :
  stringify_top_level repr_other doc !! "events" = Some (VList items) ->
  items <> [] ->
  normalize_events items = Ok items' ->
  normalize_doc repr_other doc
  = Ok (<["events" := VList items']> (stringify_top_level repr_other doc)).
Proof.
  intros Hev Hne Hn. unfold normalize_doc, py_or.
  rewrite (dict_get_Some _ _ _ Hev).
  destruct items; [congruence|]. cbn [truthy py_iter rbind].
  now rewrite Hn.
Qed.

Lemma normalize_doc_fixed doc doc' :
  normalize_doc repr_other doc = Ok doc' -> normalize_doc repr_other doc' = Ok doc'.
Proof.
  intros H. destruct (stringify_top_level_not_native doc) as [He Hl].
  apply normalize_doc_Ok in H as [[Ht ->]|(items & items' & Hev & Hne & Hn & ->)].
  - rewrite normalize_doc_falsy; rewrite stringify_top_level_idempotent; auto.
  - assert (Hfix :
              stringify_top_level repr_other
                (<["events" := VList items']>
                   (stringify_top_level repr_other doc))
              = <["events" := VList items']>
                  (stringify_top_level repr_other doc)).
    { eapply stringify_top_level_fixed.
      - rewrite lookup_insert_ne by done. apply stringify_top_level_id.
      - now rewrite dict_get_insert_ne by done.
      - now rewrite dict_get_insert_ne by done. }
    erewrite normalize_doc_list.
    + rewrite Hfix, insert_insert_eq. reflexivity.
    + rewrite Hfix. apply lookup_insert_eq.
    + eauto using normalize_events_nonempty.
    + eauto using normalize_events_fixed.
Qed.

(** C2: normalising a normalised shipment document gives it back, and a
    document that cannot be normalised fails both times alike:
    [normalize(normalize(d)) == normalize(d)]. *)
Theorem normalize_idempotent (doc : value) :
  rbind (normalize repr_other doc) (normalize repr_other) = normalize repr_other doc.
Proof.
  destruct doc; try reflexivity. cbn [normalize].
  destruct (normalize_doc repr_other d) as [d'|e] eqn:H; [|reflexivity].
  cbn [rbind normalize].
  now rewrite (normalize_doc_fixed _ _ H).
Qed.

(** Outside ["events"], the normalised document is the one lines 90-93
    leave. *)
Lemma normalize_doc_lookup_ne doc doc' key :
  normalize_doc repr_other doc = Ok doc' -> key <> "events" ->
  doc' !! key = stringify_top_level repr_other doc !! key.
Proof.
  intros H Hne.
  apply normalize_doc_Ok in H as [[_ ->]|(items & items' & _ & _ & _ & ->)];
    [reflexivity|].
  now rewrite lookup_insert_ne by done.
Qed.

Lemma normalize_doc_events doc :
  stringify_top_level repr_other doc !! "events" = doc !! "events".
Proof. now apply stringify_top_level_frame. Qed.

Lemma normalize_event_frame e e' :
  normalize_event e = Ok e' -> event_frame e e'.
Proof.
  intros H. apply normalize_event_Ok in H as (d & -> & ->).
  exists d, (stringify_timestamp d "timestamp"). repeat split.
  intros key Hkey. now apply stringify_timestamp_lookup_ne.
Qed.

Lemma normalize_event_stringified e e' :
  normalize_event e = Ok e' -> event_stringified e e'.
Proof.
  intros H. apply normalize_event_Ok in H as (d & -> & ->).
  exists d, (stringify_timestamp d "timestamp"). repeat split.
  rewrite stringify_timestamp_lookup_eq.
  destruct (dict_get d "timestamp"); auto using isoformat_iso8601.
Qed.

(** C8: normalisation changes at most ["_id"], ["eta"], ["last_update"]
    and the ["timestamp"] of each entry of ["events"]: every other
    top-level field keeps its value, an absent ["events"] stays absent, and
    a present one is either untouched or the same list of entries, each
    with all its fields but ["timestamp"] (so its ["location"] and
    ["description"]) unchanged. *)
Theorem normalize_frame doc doc' :
  normalize_doc repr_other doc = Ok doc' ->
  (forall key,
      key <> "_id" -> key <> "eta" -> key <> "last_update" ->
      key <> "events" -> doc' !! key = doc !! key)
  /\ (doc !! "events" = None -> doc' !! "events" = None)
  /\ (forall v, doc !! "events" = Some v ->
        doc' !! "events" = Some v
        \/ exists items items',
             v = VList items /\ doc' !! "events" = Some (VList items')
             /\ Forall2 event_frame items items').
Proof.
  intros H. split; [|split].
  - intros key H1 H2 H3 H4.
    rewrite (normalize_doc_lookup_ne _ _ _ H H4).
    now apply stringify_top_level_frame.
  - intros Hnone.
    apply normalize_doc_Ok in H as [[_ ->]|(items & items' & Hev & _)].
    + now rewrite normalize_doc_events.
    + rewrite normalize_doc_events in Hev. congruence.
  - intros v Hv.
    apply normalize_doc_Ok in H as [[_ ->]|(items & items' & Hev & _ & Hn & ->)].
    + left. now rewrite normalize_doc_events.
    + right. rewrite normalize_doc_events, Hv in Hev. inversion Hev; subst.
      exists items, items'. split; [reflexivity|].
      split; [apply lookup_insert_eq|].
      apply normalize_events_Ok in Hn.
      eapply Forall2_impl; [exact Hn|]. apply normalize_event_frame.
Qed.

(** C9: a document without ["_id"] gets the field, holding the text
    ["None"], since [str] is applied to whatever [doc.get] returns; an
    absent ["eta"] or ["last_update"] stays absent, those conversions being
    guarded by the type check. *)
Theorem normalize_missing_id doc doc' :
  doc !! "_id" = None ->
  normalize_doc repr_other doc = Ok doc' ->
  doc' !! "_id" = Some (VStr "None")
  /\ (doc !! "eta" = None -> doc' !! "eta" = None)
  /\ (doc !! "last_update" = None -> doc' !! "last_update" = None).
Proof.
  intros Hid H. split; [|split].
  - rewrite (normalize_doc_lookup_ne _ _ _ H) by done.
    rewrite stringify_top_level_id. unfold dict_get. now rewrite Hid.
  - intros Hnone. rewrite (normalize_doc_lookup_ne _ _ _ H) by done.
    rewrite stringify_top_level_eta, stringify_timestamp_lookup_eq.
    unfold dict_get. now rewrite Hnone.
  - intros Hnone. rewrite (normalize_doc_lookup_ne _ _ _ H) by done.
    rewrite stringify_top_level_last_update, stringify_timestamp_lookup_eq.
    unfold dict_get. now rewrite Hnone.
Qed.

Lemma event_stringified_native e e' :
  event_stringified e e' ->
  is_datetime (event_timestamp e) = true ->
  iso_string (event_timestamp e') = true.
Proof.
  intros (d & d' & -> & -> & H) Hn. simpl in *.
  destruct (dict_get d "timestamp"); try discriminate.
  destruct H as [H1 H2]. unfold dict_get. now rewrite H1.
Qed.

(** C3, as the code has it: when ["eta"] and ["last_update"] hold native
    timestamps and ["events"] is a list of mappings, one of them with a
    native ["timestamp"], normalisation returns a document whose ["_id"] is
    a string, whose ["eta"] and ["last_update"] are the ISO-8601 strings of
    the timestamps, and in which every event that held a native timestamp
    holds its ISO-8601 string while any other event timestamp is what it
    was; so when all events held native timestamps, all event timestamps
    are ISO-8601 strings. *)
Theorem normalize_native_timestamps doc eta last_update events :
  doc !! "eta" = Some (VDatetime eta) ->
  doc !! "last_update" = Some (VDatetime last_update) ->
  doc !! "events" = Some (VList events) ->
  Exists (fun e => is_datetime (event_timestamp e) = true) events ->
  Forall (fun e => is_dict e = true) events ->
  exists doc' events',
    normalize_doc repr_other doc = Ok doc'
    /\ (exists s, doc' !! "_id" = Some (VStr s))
    /\ doc' !! "eta" = Some (VStr (isoformat eta))
    /\ iso_string (VStr (isoformat eta)) = true
    /\ doc' !! "last_update" = Some (VStr (isoformat last_update))
    /\ iso_string (VStr (isoformat last_update)) = true
    /\ doc' !! "events" = Some (VList events')
    /\ Forall2 event_stringified events events'
    /\ (Forall (fun e => is_datetime (event_timestamp e) = true) events ->
        Forall (fun e' => iso_string (event_timestamp e') = true) events').
Proof.
  intros He Hl Hev Hex Hdicts.
  destruct (normalize_events_dicts _ Hdicts) as [events' Hn].
  assert (Hne : events <> []) by (destruct Hex; discriminate).
  pose proof (normalize_doc_list doc events events') as Hdoc.
  rewrite normalize_doc_events in Hdoc. specialize (Hdoc Hev Hne Hn).
  assert (Hs : Forall2 event_stringified events events').
  { apply normalize_events_Ok in Hn.
    eapply Forall2_impl; [exact Hn|]. apply normalize_event_stringified. }
  exists (<["events" := VList events']> (stringify_top_level repr_other doc)).
  exists events'.
  split; [exact Hdoc|].
  rewrite !lookup_insert_ne by done. rewrite lookup_insert_eq.
  rewrite stringify_top_level_id, stringify_top_level_eta,
    stringify_top_level_last_update.
  rewrite (stringify_timestamp_native _ _ _ He),
    (stringify_timestamp_native _ _ _ Hl).
  cbn [iso_string]. rewrite !isoformat_iso8601.
  repeat split; eauto.
  intros Hall. clear - Hs Hall.
  induction Hs as [|e e' rest rest' H _ IH]; [constructor|].
  inversion Hall; subst. constructor; eauto using event_stringified_native.
Qed.

End NormalizerProperties.

(** ** Converting an int to a float keeps its sign *)

Section FloatOfInt.

Local Open Scope Z_scope.

Lemma digits2_pos_log2 p : Zpos (digits2_pos p) = Z.log2 (Zpos p) + 1.
Proof.
  assert (Hsize : forall q, digits2_pos q = Pos.size q)
    by (induction q; simpl; congruence).
  rewrite Hsize. destruct p; simpl; lia.
Qed.

Lemma digits2_pos_lower p : 2 ^ (Zpos (digits2_pos p) - 1) <= Zpos p.
Proof.
  rewrite digits2_pos_log2.
  replace (Z.log2 (Zpos p) + 1 - 1) with (Z.log2 (Zpos p)) by lia.
  apply Z.log2_spec. lia.
Qed.

Lemma shr_1_lower mrs k :
  1 <= k -> 2 ^ k <= shr_m mrs -> 2 ^ (k - 1) <= shr_m (shr_1 mrs).
Proof.
  intros Hk Hm.
  assert (Hpos : 0 < 2 ^ k) by (apply Z.pow_pos_nonneg; lia).
  assert (Hdiv : shr_m (shr_1 mrs) = Z.div2 (shr_m mrs)).
  { destruct mrs as [m r s]. simpl in *.
    destruct m as [|[p|p|]|p]; try reflexivity; lia. }
  rewrite Hdiv, Z.div2_div.
  apply Z.div_le_lower_bound; [lia|].
  replace k with (1 + (k - 1)) in Hm by lia.
  rewrite Z.pow_add_r in Hm by lia. exact Hm.
Qed.

Lemma iter_shr_1_lower n : forall mrs k,
  Zpos n <= k -> 2 ^ k <= shr_m mrs ->
  2 ^ (k - Zpos n) <= shr_m (SpecFloat.iter_pos shr_1 n mrs).
Proof.
  induction n as [n IH|n IH|]; intros mrs k Hk Hm; cbn [SpecFloat.iter_pos].
  - replace (k - Zpos n~1) with (k - 1 - Zpos n - Zpos n) by lia.
    apply IH; [lia|]. apply IH; [lia|]. apply shr_1_lower; [lia|exact Hm].
  - replace (k - Zpos n~0) with (k - Zpos n - Zpos n) by lia.
    apply IH; [lia|]. apply IH; [lia|]. exact Hm.
  - apply shr_1_lower; [lia|exact Hm].
Qed.

Lemma shr_record_of_loc_m m l : shr_m (shr_record_of_loc m l) = m.
Proof. destruct l as [|[]]; reflexivity. Qed.

(** Shifting a positive mantissa down to its binary64 exponent leaves it
    positive. *)
Lemma shr_fexp_positive m e l :
  -1074 <= e ->
  1 <= shr_m (fst (shr_fexp 53 1024 (Zpos m) e l))
  /\ e <= snd (shr_fexp 53 1024 (Zpos m) e l).
Proof.
  intros He. unfold shr_fexp, shr, fexp, emin.
  cbn [Zdigits2].
  pose proof (digits2_pos_lower m) as Hlow.
  set (d := Zpos (digits2_pos m)) in *.
  assert (Hd : 1 <= d) by (unfold d; lia).
  destruct (Z.max (d + e - 53) (3 - 1024 - 53) - e) as [|n|n] eqn:Hn;
    cbn [fst snd]; rewrite ?shr_record_of_loc_m; try lia.
  split; [|lia].
  assert (Hshift : Zpos n <= d - 1) by lia.
  pose proof (iter_shr_1_lower n (shr_record_of_loc (Zpos m) l) (d - 1)
                Hshift) as H.
  rewrite shr_record_of_loc_m in H. specialize (H Hlow).
  assert (0 < 2 ^ (d - 1 - Zpos n)) by (apply Z.pow_pos_nonneg; lia).
  lia.
Qed.

Lemma round_nearest_even_lower m l : 1 <= m -> 1 <= round_nearest_even m l.
Proof.
  intros Hm. destruct l as [|[]]; simpl; try lia.
  destruct (Z.even m); lia.
Qed.

Lemma binary_round_aux_sign sx m e :
  -1074 <= e ->
  (exists m' e', binary_round_aux 53 1024 sx (Zpos m) e loc_Exact
                 = S754_finite sx m' e')
  \/ binary_round_aux 53 1024 sx (Zpos m) e loc_Exact = S754_infinity sx.
Proof.
  intros He. unfold binary_round_aux.
  destruct (shr_fexp_positive m e loc_Exact He) as [Hm1 He1].
  destruct (shr_fexp 53 1024 (Zpos m) e loc_Exact) as [mrs1 e1].
  cbn [fst snd] in *.
  pose proof (round_nearest_even_lower _ (loc_of_shr_record mrs1) Hm1) as Hr.
  destruct (round_nearest_even (shr_m mrs1) (loc_of_shr_record mrs1))
    as [|m1|m1]; try lia.
  destruct (shr_fexp_positive m1 e1 loc_Exact ltac:(lia)) as [Hm2 _].
  destruct (shr_fexp 53 1024 (Zpos m1) e1 loc_Exact) as [mrs2 e2].
  cbn [fst snd] in *.
  destruct (shr_m mrs2) as [|m2|m2]; try lia.
  destruct (e2 <=? 1024 - 53); eauto.
Qed.

Lemma binary_round_sign sx m :
  (exists m' e', binary_round 53 1024 sx m 0 = S754_finite sx m' e')
  \/ binary_round 53 1024 sx m 0 = S754_infinity sx.
Proof.
  unfold binary_round, shl_align, fexp, emin.
  assert (Hd : 1 <= Zpos (digits2_pos m)) by lia.
  destruct (Z.max (Zpos (digits2_pos m) + 0 - 53) (3 - 1024 - 53) - 0)
    eqn:Hn; apply binary_round_aux_sign; lia.
Qed.

(** [float(z) >= 0] is false for a negative int: the float is negative,
    finite or infinite. *)
Lemma float_of_int_negative z : z < 0 -> float_ge (float_of_int z) 0 = false.
Proof.
  intros Hz. destruct z as [|p|p]; try lia.
  unfold float_ge, float_of_int. cbn [binary_normalize].
  destruct (binary_round_sign true p) as [(m' & e' & ->)| ->]; reflexivity.
Qed.

Lemma float_negative_not_ge f : float_negative f = true -> float_ge f 0 = false.
Proof.
  unfold float_negative, float_ge, float_of_int. cbn [binary_normalize].
  destruct f as [s|s| |s m e]; try discriminate; destruct s; try discriminate;
    reflexivity.
Qed.

End FloatOfInt.

(** ** Validation *)

Section ValidationProperties.

Variable lib : model_library.


(** One failing field makes the list of failures non-empty. *)
Lemma validate_fields_reject schema body f err :
  In f schema -> validate_field lib body f = inl err ->
  fst (validate_fields lib schema body) <> [].
Proof.
  induction schema as [|f0 rest IH]; intros Hin Hf; [destruct Hin|].
  cbn [validate_fields].
  destruct (validate_fields lib rest body) as [errors fields] eqn:Hrest.
  destruct Hin as [->|Hin].
  - rewrite Hf. discriminate.
  - specialize (IH Hin Hf). cbn [fst] in IH.
    destruct (validate_field lib body f0); cbn [fst]; [discriminate|exact IH].
Qed.

Lemma validate_model_reject schema body f err :
  In f schema -> validate_field lib body f = inl err ->
  exists errors,
    errors <> [] /\ validate_model lib schema (VDict body) = inl errors.
Proof.
  intros Hin Hf. pose proof (validate_fields_reject _ _ _ _ Hin Hf) as Hne.
  cbn [validate_model].
  destruct (validate_fields lib schema body) as [[|e errors] fields];
    cbn [fst] in Hne; [congruence|].
  exists (e :: errors). split; [discriminate|reflexivity].
Qed.

(** A model is built only from a mapping all of whose fields validate. *)
Lemma validate_model_accept schema body model :
  validate_model lib schema body = inr model ->
  exists d, body = VDict d /\ validate_fields lib schema d = ([], model).
Proof.
  destruct body; try discriminate. cbn [validate_model].
  destruct (validate_fields lib schema d) as [[|e errors] fields] eqn:H;
    [|discriminate].
  intros Heq. inversion Heq; subst. eauto.
Qed.

(** The model holds the validated value of every declared field. *)
Lemma validate_fields_lookup schema body model f :
  NoDup (field_name <$> schema) ->
  validate_fields lib schema body = ([], model) ->
  In f schema ->
  exists v, validate_field lib body f = inr v /\ model !! field_name f = Some v.
Proof.
  revert model. induction schema as [|f0 rest IH]; intros model Hnd Hv Hin;
    [destruct Hin|].
  cbn [validate_fields] in Hv.
  destruct (validate_fields lib rest body) as [errors fields] eqn:Hrest.
  destruct (validate_field lib body f0) as [err|v0] eqn:Hf0; [discriminate|].
  inversion Hv; subst. rewrite fmap_cons in Hnd.
  apply NoDup_cons in Hnd as [Hnotin Hnd].
  destruct Hin as [->|Hin].
  - exists v0. split; [exact Hf0|apply lookup_insert_eq].
  - destruct (IH fields Hnd eq_refl Hin) as (v & Hfv & Hl).
    exists v. split; [exact Hfv|].
    rewrite lookup_insert_ne; [exact Hl|].
    intros Heq. apply Hnotin. rewrite Heq.
    apply list_elem_of_fmap. exists f. split; [reflexivity|].
    now apply list_elem_of_In.
Qed.

(** The model holds nothing but declared fields. *)
Lemma validate_fields_names schema body key :
  is_Some (snd (validate_fields lib schema body) !! key) ->
  In key (field_name <$> schema).
Proof.
  induction schema as [|f0 rest IH]; cbn [validate_fields snd].
  - rewrite lookup_empty. intros [? ?]. discriminate.
  - destruct (validate_fields lib rest body) as [errors fields] eqn:Hrest.
    cbn [snd] in IH. rewrite fmap_cons.
    destruct (validate_field lib body f0); cbn [snd]; intros H.
    + right. auto.
    + destruct (decide (field_name f0 = key)) as [->|Hne]; [now left|].
      rewrite lookup_insert_ne in H by exact Hne. right. auto.
Qed.

(** *** The fields of [QuoteRequest] *)

Lemma QuoteRequest_names : NoDup (field_name <$> QuoteRequest).
Proof. apply (bool_decide_unpack _). vm_compute. reflexivity. Qed.

Lemma NewShipment_names : NoDup (field_name <$> NewShipment).
Proof. apply (bool_decide_unpack _). vm_compute. reflexivity. Qed.

Lemma missing_required_field body name :
  body !! name = None ->
  validate_field lib body (Field name TStr Required None) = inl (name, "missing").
Proof. intros H. unfold validate_field. cbn. now rewrite H. Qed.

Lemma missing_required_email body :
  body !! "email" = None ->
  validate_field lib body (Field "email" TEmailStr Required None)
  = inl ("email", "missing").
Proof. intros H. unfold validate_field. cbn. now rewrite H. Qed.

Lemma bad_email_field body v :
  body !! "email" = Some v ->
  conforming_email lib v = false ->
  exists kind, validate_field lib body (Field "email" TEmailStr Required None)
               = inl ("email", kind).
Proof.
  intros H Hc. unfold validate_field. cbn. rewrite H.
  destruct v; cbn in *; eauto.
  destruct (validate_email lib s); [discriminate|eauto].
Qed.

Lemma negative_weight_field body v :
  body !! "weight_kg" = Some v ->
  negative_number v = true ->
  exists kind,
    validate_field lib body
      (Field "weight_kg" (TOptional TFloat) (Default VNone) (Some 0%Z))
    = inl ("weight_kg", kind).
Proof.
  intros H Hn. unfold validate_field. cbn [field_name field_annotation field_ge].
  rewrite H. destruct v; try discriminate;
    cbn [validate_annotation check_ge negative_number] in *.
  - destruct (int_fits_float z); [|eauto]. cbn [check_ge].
    rewrite float_of_int_negative; [eauto|]. now apply Z.ltb_lt.
  - rewrite float_negative_not_ge by exact Hn. eauto.
Qed.

(** *** The fields of [NewShipment] *)

Lemma required_str_field body name v :
  validate_field lib body (Field name TStr Required None) = inr v ->
  body !! name = Some v /\ exists s, v = VStr s.
Proof.
  unfold validate_field. cbn [field_name field_default_value field_annotation field_ge].
  destruct (body !! name) as [x|]; [|discriminate].
  destruct x; cbn; try discriminate.
  intros H. inversion H; subst. eauto.
Qed.

Lemma default_field body name t v ge :
  body !! name = None ->
  validate_field lib body (Field name t (Default v) ge) = inr v.
Proof. intros H. unfold validate_field. cbn. now rewrite H. Qed.

Lemma null_eta_field body :
  body !! "eta" = Some VNone ->
  validate_field lib body (Field "eta" (TOptional TDatetime) (Default VNone) None)
  = inr VNone.
Proof. intros H. unfold validate_field. cbn. now rewrite H. Qed.

Lemma optional_datetime_values x v :
  validate_annotation lib
    (TOptional TDatetime) x = inr v ->
  v = VNone \/ exists dt, v = VDatetime dt.
Proof.
  destruct x; cbn [validate_annotation];
    try (destruct (parse_datetime lib _); [|discriminate]);
    intros H; inversion H; eauto.
Qed.

Lemma eta_field_values body v :
  validate_field lib body (Field "eta" (TOptional TDatetime) (Default VNone) None)
  = inr v ->
  v = VNone \/ exists dt, v = VDatetime dt.
Proof.
  unfold validate_field.
  cbn [field_name field_default_value field_annotation field_ge].
  destruct (body !! "eta") as [x|]; [|intros H; inversion H; auto].
  destruct (validate_annotation _ _ x) as [kind|v'] eqn:E; [discriminate|].
  cbn [check_ge]. intros H. inversion H; subst.
  eapply optional_datetime_values; eauto.
Qed.

(** A field is validated from the one entry of the input that bears its
    name. *)
Lemma validate_field_ext body body' f :
  body !! field_name f = body' !! field_name f ->
  validate_field lib body f = validate_field lib body' f.
Proof. intros H. unfold validate_field. now rewrite H. Qed.

Lemma validate_fields_ext schema body body' :
  Forall (fun f => validate_field lib body f = validate_field lib body' f) schema ->
  validate_fields lib schema body = validate_fields lib schema body'.
Proof.
  induction 1 as [|f rest Hf _ IH]; [reflexivity|].
  cbn [validate_fields]. now rewrite IH, Hf.
Qed.

Lemma validate_null_eta body :
  validate_model lib NewShipment (VDict (<["eta" := VNone]> body))
  = validate_model lib NewShipment (VDict (delete "eta" body)).
Proof.
  cbn [validate_model].
  rewrite (validate_fields_ext NewShipment (<["eta" := VNone]> body)
             (delete "eta" body)); [reflexivity|].
  unfold NewShipment. repeat apply Forall_cons_2; try apply Forall_nil_2;
    try (apply validate_field_ext; cbn [field_name];
         now rewrite lookup_insert_ne, lookup_delete_ne by done).
  rewrite null_eta_field by apply lookup_insert_eq.
  now rewrite default_field by apply lookup_delete_eq.
Qed.

End ValidationProperties.

(** ** The handlers *)

Section HandlerProperties.

Context {S : Type}.
Variable db : persistence S.
Variable clock : nat -> datetime.
Variable repr_other : value -> string.
Variable lib : model_library.


(** *** Routing *)

Lemma run_route_invalid schema handler body errors (w : world S) :
  validate_model lib schema body = inl errors ->
  run_route lib schema handler body w
  = (JSONResponse 422 (VDict {[ "detail" := VList (error_content <$> errors) ]}),
     w).
Proof. intros H. unfold run_route. now rewrite H. Qed.

Lemma run_route_valid schema handler body model (w : world S) :
  validate_model lib schema body = inr model ->
  run_route lib schema handler body w
  = (respond (fst (handler model w)), snd (handler model w)).
Proof.
  intros H. unfold run_route. rewrite H. now destruct (handler model w).
Qed.

(** *** What each handler does with the collaborator's answer *)

Lemma create_quote_run quote (w : world S) :
  create_quote db quote w
  = (match fst (create_document db "quoterequest" quote (w_store w)) with
     | Ok inserted_id =>
         Ok (VDict {[ "ok" := VBool true; "id" := inserted_id ]})
     | Raise e => Raise (as_server_error e)
     end,
     World (snd (create_document db "quoterequest" quote (w_store w)))
           (w_ticks w) (w_calls w ++ [CreateDocument "quoterequest" quote])).
Proof.
  unfold create_quote, try_except, bind, call_create_document, ret, raise.
  destruct (create_document db "quoterequest" quote (w_store w))
    as [[id|[]] st]; reflexivity.
Qed.

Lemma create_shipment_run payload (w : world S) :
  create_shipment db clock payload w
  = (match fst (create_document db "shipment"
                  (built_shipment clock payload (w_ticks w))
                  (w_store w)) with
     | Ok inserted_id =>
         Ok (VDict {[ "ok" := VBool true; "id" := inserted_id ]})
     | Raise e => Raise (as_server_error e)
     end,
     World (snd (create_document db "shipment"
                   (built_shipment clock payload (w_ticks w))
                   (w_store w)))
           (Datatypes.S (Datatypes.S (w_ticks w + eta_ticks payload)))
           (w_calls w
            ++ [CreateDocument "shipment"
                  (built_shipment clock payload (w_ticks w))])).
Proof.
  unfold create_shipment, eta_or_now, built_shipment, eta_value, eta_ticks.
  unfold try_except, bind, call_create_document, utcnow, ret, raise.
  destruct (truthy (attr payload "eta")); cbn [w_store w_ticks w_calls];
    rewrite ?Nat.add_0_r, ?Nat.add_1_r.
  all: destruct (create_document db "shipment" _ (w_store w))
         as [[id|[]] st]; reflexivity.
Qed.

Lemma track_shipment_run tracking_number (w : world S) :
  track_shipment db repr_other tracking_number w
  = (match fst (get_documents db "shipment"
                  {[ "tracking_number" := VStr tracking_number ]} (Some 1)
                  (w_store w)) with
     | Ok [] => Raise (HTTPException 404 "Tracking number not found")
     | Ok (doc :: _) =>
         match normalize repr_other doc with
         | Ok doc' => Ok (VDict {[ "ok" := VBool true; "shipment" := doc' ]})
         | Raise e => Raise (as_tracking_error e)
         end
     | Raise e => Raise (as_tracking_error e)
     end,
     World (snd (get_documents db "shipment"
                   {[ "tracking_number" := VStr tracking_number ]} (Some 1)
                   (w_store w)))
           (w_ticks w)
           (w_calls w ++ [GetDocuments "shipment"
                            {[ "tracking_number" := VStr tracking_number ]}
                            (Some 1)])).
Proof.
  unfold track_shipment, try_except, bind, call_get_documents, lift, ret, raise.
  destruct (get_documents db "shipment" _ (Some 1) (w_store w))
    as [[[|doc docs]|[]] st]; cbn [fst snd]; try reflexivity.
  destruct (normalize repr_other doc) as [doc'|[]]; reflexivity.
Qed.

(** *** Tracking *)

(** C1: when the query of ["shipment"] for the tracking number, limit 1,
    returns no document, [track_shipment] raises the [HTTPException] with
    status 404 and detail ["Tracking number not found"], which its own
    [except] clauses let through, and the route answers 404 with that
    detail. *)
Theorem track_shipment_not_found tracking_number (w : world S) st :
  get_documents db "shipment"
    {[ "tracking_number" := VStr tracking_number ]} (Some 1) (w_store w)
  = (Ok [], st) ->
  fst (track_shipment db repr_other tracking_number w)
  = Raise (HTTPException 404 "Tracking number not found")
  /\ fst (get_api_track db repr_other tracking_number w)
     = JSONResponse 404 (VDict {[ "detail" := VStr "Tracking number not found" ]}).
Proof.
  intros H. unfold get_api_track. rewrite track_shipment_run, H. split; reflexivity.
Qed.

(** *** Failures of the collaborator *)

(** C4, as the code has it: when the call a handler makes to the
    collaborator raises an [Exception] that is not an [HTTPException], the
    handler raises [HTTPException] with status 500 whose detail is the whole
    [str(e)], whatever its length.  The call of [create_quote] is the
    insertion of the model into ["quoterequest"], that of [create_shipment]
    the insertion into ["shipment"] of the document it has built, that of
    [track_shipment] the query of ["shipment"] by tracking number. *)
Theorem persistence_failure_detail (p : py_error) quote payload
    tracking_number (w : world S) :
  (fst (create_document db "quoterequest" quote (w_store w))
   = Raise (PyError p) ->
   fst (create_quote db quote w) = Raise (HTTPException 500 (err_str p)))
  /\ (exists shipment,
        snd (create_shipment db clock payload w)
        = World (snd (create_document db "shipment" shipment (w_store w)))
            (w_ticks (snd (create_shipment db clock payload w)))
            (w_calls w ++ [CreateDocument "shipment" shipment])
        /\ (fst (create_document db "shipment" shipment (w_store w))
            = Raise (PyError p) ->
            fst (create_shipment db clock payload w)
            = Raise (HTTPException 500 (err_str p))))
  /\ (fst (get_documents db "shipment"
             {[ "tracking_number" := VStr tracking_number ]} (Some 1)
             (w_store w))
      = Raise (PyError p) ->
      fst (track_shipment db repr_other tracking_number w)
      = Raise (HTTPException 500 (err_str p))).
Proof.
  rewrite create_quote_run, create_shipment_run, track_shipment_run.
  cbn [fst snd w_ticks]. split; [|split].
  - now intros ->.
  - exists (built_shipment clock payload (w_ticks w)).
    split; [reflexivity|]. now intros ->.
  - now intros ->.
Qed.

(** *** Creating a shipment *)

Lemma NewShipment_payload (body payload : gmap string value) :
  validate_model lib NewShipment (VDict body) = inr payload ->
  (exists tracking_number origin destination status,
      body !! "tracking_number" = Some (VStr tracking_number)
      /\ payload !! "tracking_number" = Some (VStr tracking_number)
      /\ body !! "origin" = Some (VStr origin)
      /\ payload !! "origin" = Some (VStr origin)
      /\ body !! "destination" = Some (VStr destination)
      /\ payload !! "destination" = Some (VStr destination)
      /\ payload !! "status" = Some (VStr status)
      /\ (body !! "status" = None -> status = "In Transit"))
  /\ (payload !! "eta" = Some VNone
      \/ exists dt, payload !! "eta" = Some (VDatetime dt))
  /\ (body !! "eta" = None \/ body !! "eta" = Some VNone ->
      payload !! "eta" = Some VNone).
Proof.
  intros H. apply validate_model_accept in H as (d & Hd & Hv).
  inversion Hd; subst d. clear Hd.
  pose proof (fun f => validate_fields_lookup _ _ _ _ f
                          NewShipment_names Hv) as Hall.
  destruct (Hall (Field "tracking_number" TStr Required None))
    as (v1 & Hf1 & Hl1); [cbn; auto 10|].
  destruct (Hall (Field "origin" TStr Required None))
    as (v2 & Hf2 & Hl2); [cbn; auto 10|].
  destruct (Hall (Field "destination" TStr Required None))
    as (v3 & Hf3 & Hl3); [cbn; auto 10|].
  destruct (Hall (Field "status" TStr (Default (VStr "In Transit")) None))
    as (v4 & Hf4 & Hl4); [cbn; auto 10|].
  destruct (Hall (Field "eta" (TOptional TDatetime) (Default VNone) None))
    as (v5 & Hf5 & Hl5); [cbn; auto 10|].
  cbn [field_name] in *.
  apply required_str_field in Hf1 as (Hb1 & s1 & ->).
  apply required_str_field in Hf2 as (Hb2 & s2 & ->).
  apply required_str_field in Hf3 as (Hb3 & s3 & ->).
  split; [|split].
  - assert (Hs : exists s4, v4 = VStr s4
                   /\ (body !! "status" = None -> s4 = "In Transit")).
    { revert Hf4. unfold validate_field.
      cbn [field_name field_default_value field_annotation field_ge].
      destruct (body !! "status") as [x|].
      - destruct x; cbn; try discriminate. intros H; inversion H.
        eexists; split; [reflexivity|discriminate].
      - intros H; inversion H. eauto. }
    destruct Hs as (s4 & -> & Hs4).
    exists s1, s2, s3, s4. repeat split; auto.
  - destruct (eta_field_values _ _ _ Hf5) as [->|[dt ->]]; eauto.
  - intros [Hn|Hn].
    + rewrite default_field in Hf5 by exact Hn. congruence.
    + rewrite null_eta_field in Hf5 by exact Hn. congruence.
Qed.

Lemma built_shipment_eta payload ticks :
  built_shipment clock payload ticks !! "eta"
  = Some (eta_value clock payload ticks).
Proof. reflexivity. Qed.

(** What the shipments route does with a valid body. *)
Lemma post_api_shipments_run (request : value) model (w : world S) :
  validate_model lib NewShipment request = inr model ->
  post_api_shipments db clock lib request w
  = (respond (match fst (create_document db "shipment"
                           (built_shipment clock model (w_ticks w))
                           (w_store w)) with
              | Ok inserted_id =>
                  Ok (VDict {[ "ok" := VBool true; "id" := inserted_id ]})
              | Raise e => Raise (as_server_error e)
              end),
     World (snd (create_document db "shipment"
                   (built_shipment clock model (w_ticks w)) (w_store w)))
           (Datatypes.S (Datatypes.S (w_ticks w + eta_ticks model)))
           (w_calls w
            ++ [CreateDocument "shipment"
                  (built_shipment clock model (w_ticks w))])).
Proof.
  intros Hvalid. unfold post_api_shipments.
  now rewrite (run_route_valid _ _ _ _ _ Hvalid), create_shipment_run.
Qed.


(** C10: a body whose ["eta"] is [null] is validated, and so handled,
    exactly like the same body without ["eta"]: the route gives the same
    answer and leaves the same world.  For either, the document whose eta is
    the clock reading on entry is passed to [create_document] for
    ["shipment"], the store is then the one that call leaves, and three
    clock readings have been taken.  For every valid body, the document
    passed, and so stored, has a timestamp as its eta, never [None]. *)
Theorem null_eta_like_absent (body : gmap string value) request model
    (w : world S) :
  validate_model lib NewShipment request = inr model ->
  post_api_shipments db clock lib (VDict (<["eta" := VNone]> body)) w
  = post_api_shipments db clock lib (VDict (delete "eta" body)) w
  /\ (request = VDict (<["eta" := VNone]> body)
      \/ request = VDict (delete "eta" body) ->
      exists shipment,
        shipment
        = shipment_document model (VDatetime (clock (w_ticks w)))
            (clock (w_ticks w + 1)) (clock (w_ticks w + 2))
        /\ shipment !! "eta" = Some (VDatetime (clock (w_ticks w)))
        /\ snd (post_api_shipments db clock lib request w)
           = World (snd (create_document db "shipment" shipment (w_store w)))
               (w_ticks w + 3)
               (w_calls w ++ [CreateDocument "shipment" shipment])
        /\ (forall inserted_id,
              fst (create_document db "shipment" shipment (w_store w))
              = Ok inserted_id ->
              fst (post_api_shipments db clock lib request w)
              = JSONResponse 200
                  (VDict {[ "ok" := VBool true; "id" := inserted_id ]})))
  /\ (exists shipment dt,
        shipment !! "eta" = Some (VDatetime dt)
        /\ snd (post_api_shipments db clock lib request w)
           = World (snd (create_document db "shipment" shipment (w_store w)))
               (w_ticks (snd (post_api_shipments db clock lib request w)))
               (w_calls w ++ [CreateDocument "shipment" shipment])
        /\ (forall inserted_id,
              fst (create_document db "shipment" shipment (w_store w))
              = Ok inserted_id ->
              fst (post_api_shipments db clock lib request w)
              = JSONResponse 200
                  (VDict {[ "ok" := VBool true; "id" := inserted_id ]}))).
Proof.
  intros Hvalid.
  destruct (validate_model_accept _ _ _ _ Hvalid) as (d & -> & _).
  destruct (NewShipment_payload _ _ Hvalid) as (_ & Heta & Hnull).
  assert (Hattr : forall key v, model !! key = Some v -> attr model key = v).
  { intros key v Hk. unfold attr. now apply dict_get_Some. }
  split; [|split].
  - unfold post_api_shipments, run_route. now rewrite validate_null_eta.
  - intros Hreq.
    assert (Hn : model !! "eta" = Some VNone).
    { apply Hnull. destruct Hreq as [Hreq|Hreq]; inversion Hreq; subst d.
      - right. apply lookup_insert_eq.
      - left. apply lookup_delete_eq. }
    eexists. split; [reflexivity|]. split; [reflexivity|].
    rewrite (post_api_shipments_run _ _ _ Hvalid). cbn [fst snd].
    unfold built_shipment, eta_value, eta_ticks.
    rewrite (Hattr _ _ Hn). cbn [truthy].
    replace (Datatypes.S (w_ticks w + 1)) with (w_ticks w + 2) by lia.
    split.
    + f_equal. lia.
    + intros inserted_id Hok. now rewrite Hok.
  - exists (built_shipment clock model (w_ticks w)).
    rewrite (post_api_shipments_run _ _ _ Hvalid). cbn [fst snd w_ticks].
    rewrite built_shipment_eta. unfold eta_value.
    destruct Heta as [Hn|[dt Hdt]].
    + rewrite (Hattr _ _ Hn). cbn [truthy]. eexists.
      split; [reflexivity|]. split; [reflexivity|].
      intros inserted_id Hok. now rewrite Hok.
    + rewrite (Hattr _ _ Hdt). cbn [truthy]. eexists.
      split; [reflexivity|]. split; [reflexivity|].
      intros inserted_id Hok. now rewrite Hok.
Qed.

(** *** Rejecting a quote request *)

(** C6: an input mapping that lacks one of the required fields, or whose
    email is not an address the check accepts, or whose [weight_kg] is a
    negative number, is answered 422 with the list of failures, and the
    world is what it was: the collaborator is not called and nothing is
    inserted. *)
Theorem invalid_quote_rejected (body : gmap string value) (w : world S) :
  (exists key, In key required_quote_fields /\ body !! key = None)
  \/ (exists v, body !! "email" = Some v
               /\ conforming_email lib v = false)
  \/ (exists v, body !! "weight_kg" = Some v /\ negative_number v = true) ->
  exists errors,
    errors <> []
    /\ post_api_quote db lib (VDict body) w
       = (JSONResponse 422
            (VDict {[ "detail" := VList (error_content <$> errors) ]}),
          w).
Proof.
  intros H.
  assert (Hrej : exists f err,
             In f QuoteRequest
             /\ validate_field lib
                  body f = inl err).
  { destruct H as [(key & Hin & Hnone)|[(v & Hv & Hbad)|(v & Hv & Hneg)]].
    - cbn in Hin.
      destruct Hin as [<-|[<-|[<-|[<-|[<-|[]]]]]];
        eexists; eexists;
        (split; [|first [apply missing_required_email; exact Hnone
                        |apply missing_required_field; exact Hnone]]);
        cbn; auto 20.
    - destruct (bad_email_field lib
                  _ _ Hv Hbad) as [kind Hk].
      eexists; eexists; split; [|exact Hk]. cbn; auto 20.
    - destruct (negative_weight_field lib _ _ Hv Hneg) as [kind Hk].
      eexists; eexists; split; [|exact Hk]. cbn; auto 20. }
  destruct Hrej as (f & err & Hin & Hf).
  destruct (validate_model_reject _ _ _ _ _ Hin Hf) as (errors & Hne & Hv).
  exists errors. split; [exact Hne|].
  unfold post_api_quote. now apply run_route_invalid.
Qed.

End HandlerProperties.

(** ** Quotes in the store *)

Section QuoteProperties.

Variable lib : model_library.






End QuoteProperties.

(** ** The properties on the sample data *)

Lemma long_error_length n : py_len (err_str (Sample.long_error n)) = n.
Proof.
  unfold Sample.long_error. cbn [err_str].
  induction n as [|n IH]; [reflexivity|].
  cbn [repeat string_of_list_ascii py_len]. rewrite IH. reflexivity.
Qed.

(** C3, as stated, fails: the document has native ["eta"] and
    ["last_update"] and an event with a native timestamp, and after
    normalisation the timestamp of its second event is still the integer it
    was, not an ISO-8601 string. *)
Lemma mixed_events_counterexample :
  Sample.mixed_events_shipment !! "eta" = Some (VDatetime (Sample.clock 0))
  /\ Sample.mixed_events_shipment !! "last_update"
     = Some (VDatetime (Sample.clock 1))
  /\ Sample.mixed_events_shipment !! "events"
     = Some (VList [Sample.created_event; Sample.epoch_event])
  /\ Exists (fun e => is_datetime (event_timestamp e) = true)
       [Sample.created_event; Sample.epoch_event]
  /\ normalize_doc Sample.no_repr Sample.mixed_events_shipment
     = Ok Sample.normalized_mixed_events_shipment
  /\ Sample.normalized_mixed_events_shipment !! "events"
     = Some (VList [Sample.created_event_normalized; Sample.epoch_event])
  /\ event_timestamp Sample.epoch_event = VInt 1709280000
  /\ ~ Forall (fun e' => iso_string (event_timestamp e') = true)
         [Sample.created_event_normalized; Sample.epoch_event].
Proof.
  repeat (split; [by_evaluation|]).
  split; [left; by_evaluation|].
  repeat (split; [by_evaluation|]).
  intros H. inversion H as [|e1 rest1 _ H2]; subst.
  inversion H2 as [|e2 rest2 Hbad _]; subst.
  assert (Hint : iso_string (event_timestamp Sample.epoch_event) = false)
    by by_evaluation.
  congruence.
Qed.

(** C4, as stated, fails: the store's failure has a message of 156
    characters and the route answers 500 with all of it as the detail; and
    no length bounds the detail [create_quote] raises. *)
Lemma full_detail_counterexample :
  fst (post_api_quote SpecStore.db Sample.lib (VDict Sample.quote_body)
         (Sample.failing_world Sample.timeout_error))
  = JSONResponse 500
      (VDict {[ "detail" := VStr (err_str Sample.timeout_error) ]})
  /\ py_len (err_str Sample.timeout_error) = 156
  /\ ~ exists bound, forall n,
         exists s,
           raised_detail (fst (create_quote SpecStore.db Sample.quote_model
                                 (Sample.failing_world (Sample.long_error n))))
           = Some s
           /\ py_len s <= bound.
Proof.
  split; [by_evaluation|].
  split; [by_evaluation|].
  intros [bound H]. destruct (H (S bound)) as (s & Hs & Hlen).
  rewrite create_quote_run in Hs.
  assert (s = err_str (Sample.long_error (S bound))) as ->
    by (cbn in Hs; now inversion Hs).
  rewrite long_error_length in Hlen. lia.
Qed.



(** *** The theorems at the sample data *)

Lemma track_shipment_not_found_witness :
  fst (track_shipment SpecStore.db Sample.no_repr "UNKNOWN123" Sample.empty_world)
  = Raise (HTTPException 404 "Tracking number not found")
  /\ fst (get_api_track SpecStore.db Sample.no_repr "UNKNOWN123"
            Sample.empty_world)
     = JSONResponse 404 (VDict {[ "detail" := VStr "Tracking number not found" ]}).
Proof.
  apply (track_shipment_not_found SpecStore.db Sample.no_repr "UNKNOWN123"
           Sample.empty_world (SpecStore.empty Sample.object_ids)).
  by_evaluation.
Defined.

Lemma normalize_native_timestamps_witness :
  exists doc',
    normalize_doc Sample.no_repr Sample.mixed_events_shipment = Ok doc'
    /\ doc' !! "eta" = Some (VStr (isoformat (Sample.clock 0)))
    /\ doc' !! "last_update" = Some (VStr (isoformat (Sample.clock 1))).
Proof.
  destruct (normalize_native_timestamps Sample.no_repr
              Sample.mixed_events_shipment (Sample.clock 0) (Sample.clock 1)
              [Sample.created_event; Sample.epoch_event])
    as (doc' & events' & Hn & _ & Heta & _ & Hlast & _).
  - by_evaluation.
  - by_evaluation.
  - by_evaluation.
  - left. by_evaluation.
  - repeat constructor.
  - exists doc'. split; [exact Hn|]. split; [exact Heta|exact Hlast].
Defined.

Lemma persistence_failure_detail_witness :
  fst (create_quote SpecStore.db Sample.quote_model
         (Sample.failing_world Sample.timeout_error))
  = Raise (HTTPException 500 (err_str Sample.timeout_error))
  /\ fst (track_shipment SpecStore.db Sample.no_repr "TRK1"
            (Sample.failing_world Sample.timeout_error))
     = Raise (HTTPException 500 (err_str Sample.timeout_error)).
Proof.
  destruct (persistence_failure_detail SpecStore.db Sample.clock Sample.no_repr
              Sample.timeout_error Sample.quote_model Sample.shipment_model
              "TRK1" (Sample.failing_world Sample.timeout_error))
    as (Hquote & _ & Htrack).
  split; [apply Hquote|apply Htrack]; reflexivity.
Defined.


Lemma invalid_quote_rejected_witness :
  exists errors,
    errors <> []
    /\ post_api_quote SpecStore.db Sample.lib (VDict Sample.bad_email_body) Sample.empty_world
       = (JSONResponse 422
            (VDict {[ "detail" := VList (error_content <$> errors) ]}),
          Sample.empty_world).
Proof.
  apply (invalid_quote_rejected SpecStore.db Sample.lib Sample.bad_email_body
           Sample.empty_world).
  right. left. exists (VStr "not-an-email").
  split; by_evaluation.
Defined.


Lemma normalize_frame_witness :
  normalize_doc Sample.no_repr Sample.stored_shipment
  = Ok Sample.normalized_shipment
  /\ Sample.normalized_shipment !! "status"
     = Sample.stored_shipment !! "status".
Proof.
  assert (Hn : normalize_doc Sample.no_repr Sample.stored_shipment
               = Ok Sample.normalized_shipment) by by_evaluation.
  split; [exact Hn|].
  apply (normalize_frame Sample.no_repr Sample.stored_shipment
           Sample.normalized_shipment Hn); discriminate.
Defined.

Lemma normalize_missing_id_witness :
  normalize_doc Sample.no_repr Sample.bare_shipment
  = Ok Sample.normalized_bare_shipment
  /\ Sample.normalized_bare_shipment !! "_id" = Some (VStr "None").
Proof.
  assert (Hn : normalize_doc Sample.no_repr Sample.bare_shipment
               = Ok Sample.normalized_bare_shipment) by by_evaluation.
  split; [exact Hn|].
  apply (normalize_missing_id Sample.no_repr Sample.bare_shipment
           Sample.normalized_bare_shipment); [by_evaluation|exact Hn].
Defined.

Lemma null_eta_like_absent_witness :
  post_api_shipments SpecStore.db Sample.clock Sample.lib
    (VDict (<["eta" := VNone]> Sample.shipment_body)) Sample.empty_world
  = post_api_shipments SpecStore.db Sample.clock Sample.lib
      (VDict (delete "eta" Sample.shipment_body)) Sample.empty_world
  /\ exists shipment,
       shipment !! "eta" = Some (VDatetime (Sample.clock 0))
       /\ w_ticks (snd (post_api_shipments SpecStore.db Sample.clock Sample.lib
                          (VDict (<["eta" := VNone]> Sample.shipment_body))
                          Sample.empty_world))
          = 3
       /\ w_calls (snd (post_api_shipments SpecStore.db Sample.clock Sample.lib
                          (VDict (<["eta" := VNone]> Sample.shipment_body))
                          Sample.empty_world))
          = [CreateDocument "shipment" shipment].
Proof.
  destruct (null_eta_like_absent SpecStore.db Sample.clock
              Sample.lib
              Sample.shipment_body
              (VDict (<["eta" := VNone]> Sample.shipment_body))
              Sample.shipment_model Sample.empty_world)
    as (Hsame & Hnow & _).
  - by_evaluation.
  - split; [exact Hsame|].
    destruct Hnow as (shipment & _ & Heta & Hrun & _);
      [left; reflexivity|].
    exists shipment. split; [exact Heta|]. rewrite Hrun. split; reflexivity.
Defined.

(** ** More on normalisation *)

Lemma stringify_timestamp_dom doc key :
  dom (stringify_timestamp doc key) = dom doc.
Proof.
  unfold stringify_timestamp.
  destruct (dict_get doc key) eqn:E; try reflexivity.
  rewrite dom_insert_L.
  assert (key ∈ dom doc).
  { unfold dict_get in E. apply elem_of_dom.
    destruct (doc !! key); [eauto|discriminate]. }
  now apply subseteq_union_1_L, singleton_subseteq_l.
Qed.

Lemma normalize_events_all_dicts events events' :
  normalize_events events = Ok events' ->
  forallb is_dict events = true.
Proof.
  intros H. apply normalize_events_Ok in H.
  induction H as [|e e' rest rest' He _ IH]; [reflexivity|].
  apply normalize_event_Ok in He as (d & -> & _). exact IH.
Qed.

Lemma normalize_events_first_non_dict events e :
  find (fun e => negb (is_dict e)) events = Some e ->
  normalize_events events = Raise (AttributeError e "get").
Proof.
  induction events as [|x rest IH]; [discriminate|].
  cbn [find normalize_events].
  destruct x; cbn [is_dict negb normalize_event rbind];
    try (intros H; inversion H; reflexivity).
  intros H. now rewrite (IH H).
Qed.

Lemma normalize_events_not_native events events' :
  normalize_events events = Ok events' ->
  Forall (fun e' => is_datetime (event_timestamp e') = false) events'.
Proof.
  intros H. apply normalize_events_Ok in H.
  induction H as [|e e' rest rest' He _ IH]; constructor; [|exact IH].
  apply normalize_event_Ok in He as (d & -> & ->).
  apply stringify_timestamp_not_native.
Qed.

Section MoreNormalizerProperties.

Variable repr_other : value -> string.

Lemma stringify_top_level_events_get doc :
  dict_get (stringify_top_level repr_other doc) "events"
  = dict_get doc "events".
Proof. unfold dict_get. now rewrite normalize_doc_events. Qed.

(** X1: normalisation returns a document exactly when ["events"] is missing
    or false ([None], an empty list, ...) or is a list all of whose entries
    are dicts; in every other case it raises. *)
Theorem normalize_doc_succeeds_iff doc :
  (exists doc', normalize_doc repr_other doc = Ok doc')
  <-> normalizable doc = true.
Proof.
  unfold normalizable. split.
  - intros [doc' H].
    apply normalize_doc_Ok in H
      as [[Ht _]|(items & items' & Hev & _ & Hn & _)].
    + rewrite stringify_top_level_events_get in Ht. now rewrite Ht.
    + rewrite normalize_doc_events in Hev.
      rewrite (dict_get_Some _ _ _ Hev).
      rewrite (normalize_events_all_dicts _ _ Hn). apply orb_true_r.
  - intros H.
    destruct (truthy (dict_get doc "events")) eqn:Ht.
    + cbn [negb orb] in H.
      destruct (dict_get doc "events") as [| | | | | | |entries|] eqn:Hev;
        try discriminate.
      assert (Hl : stringify_top_level repr_other doc !! "events"
                   = Some (VList entries)).
      { rewrite normalize_doc_events. unfold dict_get in Hev.
        destruct (doc !! "events"); simpl in Hev; congruence. }
      destruct (normalize_events_dicts entries) as [entries' Hn].
      { apply Forall_forall. intros x Hx.
        rewrite forallb_forall in H. apply H.
        now apply list_elem_of_In. }
      eexists. apply (normalize_doc_list repr_other doc entries entries' Hl);
        [|exact Hn].
      destruct entries; [discriminate|discriminate].
    + eexists. apply normalize_doc_falsy.
      now rewrite stringify_top_level_events_get.
Qed.

(** X2: the normalised document has the keys of the raw one and ["_id"]:
    no key is dropped and no other key is added. *)
Theorem normalize_doc_keys doc doc' :
  normalize_doc repr_other doc = Ok doc' ->
  dom doc' = {["_id"]} ∪ dom doc.
Proof.
  intros H.
  assert (Htop : dom (stringify_top_level repr_other doc)
                 = {["_id"]} ∪ dom doc).
  { unfold stringify_top_level. cbn [fold_left].
    rewrite !stringify_timestamp_dom. apply dom_insert_L. }
  apply normalize_doc_Ok in H
    as [[_ ->]|(items & items' & Hev & _ & _ & ->)]; [exact Htop|].
  rewrite dom_insert_L, Htop.
  assert ("events" ∈ dom (stringify_top_level repr_other doc))
    by (apply elem_of_dom; eauto).
  rewrite Htop in *. now apply subseteq_union_1_L, singleton_subseteq_l.
Qed.

(** X3: in a normalised document the identifier is a string, neither
    ["eta"] nor ["last_update"] holds a native timestamp, and no entry of
    ["events"] holds one under ["timestamp"]. *)
Theorem normalize_doc_no_native_timestamp doc doc' :
  normalize_doc repr_other doc = Ok doc' ->
  (exists s, doc' !! "_id" = Some (VStr s))
  /\ is_datetime (dict_get doc' "eta") = false
  /\ is_datetime (dict_get doc' "last_update") = false
  /\ (forall events', doc' !! "events" = Some (VList events') ->
        Forall (fun e' => is_datetime (event_timestamp e') = false) events').
Proof.
  intros H.
  destruct (stringify_top_level_not_native repr_other doc) as [He Hl].
  pose proof (stringify_top_level_id repr_other doc) as Hid.
  apply normalize_doc_Ok in H
    as [[Ht ->]|(items & items' & Hev & _ & Hn & ->)].
  - repeat split; eauto.
    intros events' Hev. rewrite (dict_get_Some _ _ _ Hev) in Ht.
    destruct events'; [constructor|discriminate].
  - rewrite lookup_insert_ne by done.
    rewrite !dict_get_insert_ne by done. repeat split; eauto.
    intros events'. rewrite lookup_insert_eq. intros Heq.
    inversion Heq; subst. eauto using normalize_events_not_native.
Qed.

End MoreNormalizerProperties.

(** ** More on the handlers *)

Section MoreHandlerProperties.

Context {S : Type}.
Variable db : persistence S.
Variable clock : nat -> datetime.
Variable repr_other : value -> string.
Variable lib : model_library.

Lemma normalize_doc_non_mapping_event doc events e :
  doc !! "events" = Some (VList events) ->
  find (fun e => negb (is_dict e)) events = Some e ->
  normalize_doc repr_other doc = Raise (AttributeError e "get").
Proof.
  intros Hev Hfind. unfold normalize_doc, py_or.
  rewrite stringify_top_level_events_get, (dict_get_Some _ _ _ Hev).
  destruct events as [|x rest]; [discriminate|].
  cbn [truthy py_iter rbind].
  now rewrite (normalize_events_first_non_dict _ _ Hfind).
Qed.


(** X5: when the first document found holds under ["events"] a list with an
    entry that is not a dict, [track_shipment] does not return the shipment:
    the route answers 500 and the detail is the interpreter's message for
    the first such entry, [e.get] having failed on it. *)
Theorem track_shipment_non_mapping_event tracking_number (w : world S) doc
    rest st events e :
  get_documents db "shipment"
    {[ "tracking_number" := VStr tracking_number ]} (Some 1) (w_store w)
  = (Ok (VDict doc :: rest), st) ->
  doc !! "events" = Some (VList events) ->
  find (fun e => negb (is_dict e)) events = Some e ->
  fst (get_api_track db repr_other tracking_number w)
  = JSONResponse 500
      (VDict {[ "detail" :=
                  VStr ("'" ++ type_name e
                        ++ "' object has no attribute 'get'") ]}).
Proof.
  intros Hq Hev Hfind. unfold get_api_track.
  rewrite track_shipment_run, Hq. cbn [fst snd normalize].
  rewrite (normalize_doc_non_mapping_event _ _ _ Hev Hfind).
  reflexivity.
Qed.

(** Normalisation raises nothing but an [Exception] of the interpreter. *)
Lemma normalize_events_raises events e :
  normalize_events events = Raise e -> exists p, e = PyError p.
Proof.
  induction events as [|x rest IH]; cbn [normalize_events rbind];
    [discriminate|].
  destruct x; cbn [normalize_event rbind];
    try (intros [= <-]; eexists; reflexivity).
  destruct (normalize_events rest) as [rest'|e'];
    [discriminate|]. intros [= <-]. now apply IH.
Qed.

Lemma normalize_raises doc e :
  normalize repr_other doc = Raise e -> exists p, e = PyError p.
Proof.
  destruct doc as [| | | | | | | |d]; cbn [normalize];
    try (intros [= <-]; eexists; reflexivity).
  unfold normalize_doc.
  destruct (py_iter _) as [items|e'] eqn:Hiter; cbn [rbind].
  - destruct (normalize_events items) as [items'|e'] eqn:Hev; cbn [rbind];
      [discriminate|]. intros [= <-]. now apply (normalize_events_raises items).
  - intros [= <-]. revert Hiter. unfold py_iter.
    destruct (py_or _ _); try discriminate;
      intros [= <-]; eexists; reflexivity.
Qed.

(** X6: no handler lets an [Exception] other than [HTTPException] out: each
    returns a value or raises an [HTTPException], so the framework's own
    answer for uncaught exceptions is not used, as long as the handler's
    call to the collaborator raises no exception that is not an [Exception]
    ([SystemExit], [KeyboardInterrupt]).  Such a one no [except Exception]
    clause catches: it leaves the handler as it was raised. *)
Theorem handlers_raise_only_http quote payload tracking_number (w : world S) :
  ((forall p, fst (create_document db "quoterequest" quote (w_store w))
              <> Raise (Interrupt p)) ->
   handled (fst (create_quote db quote w)) = true)
  /\ (forall p, fst (create_document db "quoterequest" quote (w_store w))
                = Raise (Interrupt p) ->
                fst (create_quote db quote w) = Raise (Interrupt p))
  /\ (exists shipment,
        w_calls (snd (create_shipment db clock payload w))
        = (w_calls w ++ [CreateDocument "shipment" shipment])%list
        /\ ((forall p, fst (create_document db "shipment" shipment (w_store w))
                       <> Raise (Interrupt p)) ->
            handled (fst (create_shipment db clock payload w)) = true)
        /\ (forall p, fst (create_document db "shipment" shipment (w_store w))
                      = Raise (Interrupt p) ->
                      fst (create_shipment db clock payload w)
                      = Raise (Interrupt p)))
  /\ ((forall p, fst (get_documents db "shipment"
                        {[ "tracking_number" := VStr tracking_number ]}
                        (Some 1) (w_store w))
                 <> Raise (Interrupt p)) ->
      handled (fst (track_shipment db repr_other tracking_number w)) = true)
  /\ (forall p, fst (get_documents db "shipment"
                       {[ "tracking_number" := VStr tracking_number ]}
                       (Some 1) (w_store w))
                = Raise (Interrupt p) ->
                fst (track_shipment db repr_other tracking_number w)
                = Raise (Interrupt p)).
Proof.
  rewrite create_quote_run, create_shipment_run, track_shipment_run.
  cbn [fst snd w_calls]. split; [|split; [|split; [|split]]].
  - destruct (fst (create_document db "quoterequest" quote (w_store w)))
      as [id|[| |p]]; try reflexivity.
    intros H. now destruct (H p).
  - now intros p ->.
  - eexists. split; [reflexivity|]. split.
    + destruct (fst (create_document db "shipment" _ (w_store w)))
        as [id|[| |p]]; try reflexivity.
      intros H. now destruct (H p).
    + now intros p ->.
  - destruct (fst (get_documents db "shipment" _ (Some 1) (w_store w)))
      as [[|doc docs]|[| |p]]; try reflexivity.
    + intros _.
      destruct (normalize repr_other doc) as [doc'|e] eqn:Hn; [reflexivity|].
      now destruct (normalize_raises _ _ Hn) as [p ->].
    + intros H. now destruct (H p).
  - now intros p ->.
Qed.

(** X7: an [HTTPException] raised by the call a handler makes to the
    collaborator leaves [track_shipment] as it is, status and detail, while
    [create_quote] and [create_shipment] catch it like any [Exception] and
    raise status 500 with its text as the detail. *)
Theorem collaborator_http_exception status detail quote payload
    tracking_number (w : world S) :
  (fst (get_documents db "shipment"
          {[ "tracking_number" := VStr tracking_number ]} (Some 1)
          (w_store w))
   = Raise (HTTPException status detail) ->
   fst (track_shipment db repr_other tracking_number w)
   = Raise (HTTPException status detail))
  /\ (fst (create_document db "quoterequest" quote (w_store w))
      = Raise (HTTPException status detail) ->
      fst (create_quote db quote w)
      = Raise (HTTPException 500 (str_exn (HTTPException status detail))))
  /\ (exists shipment,
        w_calls (snd (create_shipment db clock payload w))
        = (w_calls w ++ [CreateDocument "shipment" shipment])%list
        /\ (fst (create_document db "shipment" shipment (w_store w))
            = Raise (HTTPException status detail) ->
            fst (create_shipment db clock payload w)
            = Raise (HTTPException 500
                       (str_exn (HTTPException status detail))))).
Proof.
  rewrite create_quote_run, create_shipment_run, track_shipment_run.
  cbn [fst snd w_calls]. split; [|split].
  - now intros ->.
  - now intros ->.
  - eexists. split; [reflexivity|]. now intros ->.
Qed.

(** X8: [create_quote] and [track_shipment] each call the collaborator
    exactly once, whether the call returns or raises, and neither reads the
    clock: the one call of [create_quote] is the insertion of the model into
    ["quoterequest"], the one call of [track_shipment] is the query of
    ["shipment"] by tracking number with limit 1, so tracking inserts
    nothing. *)
Theorem quote_and_track_call_once quote tracking_number (w : world S) :
  w_calls (snd (create_quote db quote w))
  = (w_calls w ++ [CreateDocument "quoterequest" quote])%list
  /\ w_ticks (snd (create_quote db quote w)) = w_ticks w
  /\ w_calls (snd (track_shipment db repr_other tracking_number w))
     = (w_calls w
        ++ [GetDocuments "shipment"
              {[ "tracking_number" := VStr tracking_number ]} (Some 1)])%list
  /\ w_ticks (snd (track_shipment db repr_other tracking_number w))
     = w_ticks w.
Proof.
  rewrite create_quote_run, track_shipment_run. repeat split.
Qed.

(** X9: [create_shipment] reads the clock once per timestamp, in the order
    of the dict display: without an eta in the payload the document's eta,
    last_update and event timestamp are three successive readings; with one,
    the eta is the payload's and last_update and the event timestamp are two
    successive readings.  The document is handed to the collaborator in the
    handler's only call. *)
Theorem create_shipment_clock_readings payload (w : world S) :
  let w' := snd (create_shipment db clock payload w) in
  let t := w_ticks w in
  (truthy (attr payload "eta") = false ->
   w_ticks w' = t + 3
   /\ w_calls w'
      = (w_calls w
         ++ [CreateDocument "shipment"
               (shipment_document payload (VDatetime (clock t))
                  (clock (t + 1)) (clock (t + 2)))])%list)
  /\ (truthy (attr payload "eta") = true ->
      w_ticks w' = t + 2
      /\ w_calls w'
         = (w_calls w
            ++ [CreateDocument "shipment"
                  (shipment_document payload (attr payload "eta")
                     (clock t) (clock (t + 1)))])%list).
Proof.
  cbv zeta. rewrite create_shipment_run. cbn [snd w_ticks w_calls].
  unfold built_shipment, eta_value, eta_ticks.
  split; intros Ht; rewrite Ht.
  - replace (w_ticks w + 2) with (Datatypes.S (w_ticks w + 1)) by lia.
    split; [lia|reflexivity].
  - rewrite Nat.add_0_r, Nat.add_1_r. split; [lia|reflexivity].
Qed.

End MoreHandlerProperties.

(** ** More on validation *)

Section MoreValidationProperties.

Context {S : Type}.
Variable db : persistence S.
Variable clock : nat -> datetime.
Variable lib : model_library.

Lemma given_str_field body name dflt s :
  body !! name = Some (VStr s) ->
  validate_field lib body (Field name TStr dflt None) = inr (VStr s).
Proof. intros H. unfold validate_field. cbn. now rewrite H. Qed.

Lemma not_str_field body name dflt v :
  body !! name = Some v -> (forall s, v <> VStr s) ->
  validate_field lib body (Field name TStr dflt None)
  = inl (name, "string_type").
Proof.
  intros H Hv. unfold validate_field. cbn. rewrite H.
  destruct v; try reflexivity. now destruct (Hv s).
Qed.

Lemma given_eta_field body eta_in eta :
  body !! "eta" = Some eta_in -> eta_in <> VNone ->
  parse_datetime lib eta_in = Some eta ->
  validate_field lib body
    (Field "eta" (TOptional TDatetime) (Default VNone) None)
  = inr (VDatetime eta).
Proof.
  intros H Hn Hp. unfold validate_field. cbn. rewrite H.
  destruct eta_in; try congruence; cbn; now rewrite Hp.
Qed.





(** The model of a valid body holds exactly the declared fields. *)
Lemma validate_fields_keys schema body model key :
  NoDup (field_name <$> schema) ->
  validate_fields lib schema body = ([], model) ->
  is_Some (model !! key) <-> In key (field_name <$> schema).
Proof.
  intros Hnd Hv. split.
  - intros H. pose proof (validate_fields_names lib schema body key) as Hn.
    rewrite Hv in Hn. now apply Hn.
  - intros Hin. apply list_elem_of_In, list_elem_of_fmap in Hin
      as (f & -> & Hf).
    apply list_elem_of_In in Hf.
    destruct (validate_fields_lookup lib _ _ _ f Hnd Hv Hf) as (v & _ & Hl).
    eauto.
Qed.

(** X10: a status and an eta given in a valid body are the ones stored: the
    document handed to the collaborator holds the body's status and the
    timestamp the library read from the body's eta, and only two clock
    readings are taken. *)
Theorem given_status_and_eta_kept (body model : gmap string value) status
    eta_in eta (w : world S) :
  validate_model lib NewShipment (VDict body) = inr model ->
  body !! "status" = Some (VStr status) ->
  body !! "eta" = Some eta_in -> eta_in <> VNone ->
  parse_datetime lib eta_in = Some eta ->
  exists shipment,
    w_calls (snd (post_api_shipments db clock lib (VDict body) w))
    = (w_calls w ++ [CreateDocument "shipment" shipment])%list
    /\ shipment !! "status" = Some (VStr status)
    /\ shipment !! "eta" = Some (VDatetime eta)
    /\ w_ticks (snd (post_api_shipments db clock lib (VDict body) w))
       = w_ticks w + 2.
Proof.
  intros Hvalid Hs He Hne Hp.
  destruct (validate_model_accept _ _ _ _ Hvalid) as (d & Hd & Hv).
  inversion Hd; subst d; clear Hd.
  pose proof (fun f => validate_fields_lookup _ _ _ _ f
                          NewShipment_names Hv) as Hall.
  destruct (Hall (Field "status" TStr (Default (VStr "In Transit")) None))
    as (v4 & Hf4 & Hl4); [cbn; auto 10|].
  destruct (Hall (Field "eta" (TOptional TDatetime) (Default VNone) None))
    as (v5 & Hf5 & Hl5); [cbn; auto 10|].
  cbn [field_name] in *.
  rewrite (given_str_field _ _ _ _ Hs) in Hf4.
  rewrite (given_eta_field _ _ _ He Hne Hp) in Hf5.
  inversion Hf4; subst v4. inversion Hf5; subst v5.
  assert (Hattr : forall key v, model !! key = Some v -> attr model key = v).
  { intros key v Hk. unfold attr. now apply dict_get_Some. }
  exists (built_shipment clock model (w_ticks w)).
  unfold post_api_shipments.
  rewrite (run_route_valid _ _ _ _ _ _ Hvalid), create_shipment_run.
  cbn [snd w_calls w_ticks].
  unfold built_shipment, eta_value, eta_ticks, shipment_document.
  rewrite (Hattr _ _ Hl4), (Hattr _ _ Hl5). cbn [truthy].
  repeat split; try reflexivity. lia.
Qed.

(** X11: a shipment body that lacks [tracking_number], [origin] or
    [destination], or whose [status] is there but is not text ([null]
    included), is answered 422 with the failures, and the world is what it
    was: no document is built, the clock is not read and the collaborator is
    not called. *)
Theorem invalid_shipment_rejected (body : gmap string value) (w : world S) :
  (exists key, In key required_shipment_fields /\ body !! key = None)
  \/ (exists v, body !! "status" = Some v /\ forall s, v <> VStr s) ->
  exists errors,
    errors <> []
    /\ post_api_shipments db clock lib (VDict body) w
       = (JSONResponse 422
            (VDict {[ "detail" := VList (error_content <$> errors) ]}),
          w).
Proof.
  intros H.
  assert (Hrej : exists f err,
             In f NewShipment /\ validate_field lib body f = inl err).
  { destruct H as [(key & Hin & Hnone)|(v & Hv & Hns)].
    - cbn in Hin. destruct Hin as [<-|[<-|[<-|[]]]];
        eexists; eexists;
        (split; [|apply missing_required_field; exact Hnone]);
        cbn; auto 10.
    - exists (Field "status" TStr (Default (VStr "In Transit")) None).
      eexists. split; [|exact (not_str_field _ _ _ _ Hv Hns)].
      cbn; auto 10. }
  destruct Hrej as (f & err & Hin & Hf).
  destruct (validate_model_reject _ _ _ _ _ Hin Hf) as (errors & Hne & Hv).
  exists errors. split; [exact Hne|].
  unfold post_api_shipments. now apply run_route_invalid.
Qed.


(** X13: for a valid quote body the one call to the collaborator inserts
    into ["quoterequest"] a model that holds the twelve declared fields and
    no other key, so a key of the body that the model does not declare never
    reaches the store. *)
Theorem quote_model_keys (body model : gmap string value) (w : world S) :
  validate_model lib QuoteRequest (VDict body) = inr model ->
  w_calls (snd (post_api_quote db lib (VDict body) w))
  = (w_calls w ++ [CreateDocument "quoterequest" model])%list
  /\ (forall key,
        is_Some (model !! key) <-> In key (field_name <$> QuoteRequest))
  /\ (forall key,
        ~ In key (field_name <$> QuoteRequest) -> model !! key = None).
Proof.
  intros Hvalid.
  destruct (validate_model_accept _ _ _ _ Hvalid) as (d & Hd & Hv).
  inversion Hd; subst d; clear Hd.
  pose proof (fun key => validate_fields_keys _ _ _ key
                            QuoteRequest_names Hv) as Hkeys.
  split; [|split].
  - unfold post_api_quote.
    now rewrite (run_route_valid _ _ _ _ _ _ Hvalid), create_quote_run.
  - exact Hkeys.
  - intros key Hnot. destruct (model !! key) eqn:E; [|reflexivity].
    destruct Hnot. apply Hkeys. eauto.
Qed.


(** X15: a float given as [weight_kg] passes [ge=0] exactly when it is a
    number and is not below zero: zero of either sign and positive infinity
    pass, NaN and every negative float fail. *)
Theorem float_weight_accepted_iff (body : gmap string value) f :
  body !! "weight_kg" = Some (VFloat f) ->
  (exists v,
      validate_field lib body
        (Field "weight_kg" (TOptional TFloat) (Default VNone) (Some 0%Z))
      = inr v)
  <-> f <> S754_nan /\ float_negative f = false.
Proof.
  intros H. unfold validate_field.
  cbn [field_name field_annotation field_default_value field_ge].
  rewrite H. cbn [validate_annotation check_ge].
  unfold float_ge, float_negative, float_of_int. cbn [binary_normalize].
  destruct f as [s|s| |s m e]; try destruct s; cbn; split;
    try (intros [v Hv]; discriminate);
    try (intros [Hn Hneg]; congruence);
    try (intros _; split; [discriminate|reflexivity]);
    try (intros _; eauto).
Qed.

End MoreValidationProperties.

(** ** The health check *)

Lemma str_prefix_length s : forall n,
  py_len (str_prefix n s) = Nat.min n (py_len s).
Proof.
  induction s as [|a s IH]; intros n; cbn [str_prefix py_len];
    [now rewrite Nat.min_0_r|].
  destruct (is_continuation a) eqn:Ha.
  - cbn [py_len]. now rewrite Ha, IH.
  - destruct n as [|n]; [reflexivity|]. cbn [py_len]. rewrite Ha, IH. lia.
Qed.

Lemma str_prefix_short s : forall n,
  py_len s <= n -> str_prefix n s = s.
Proof.
  induction s as [|a s IH]; intros n; cbn [str_prefix py_len];
    [reflexivity|].
  destruct (is_continuation a); cbn [Nat.add]; intros H.
  - now rewrite IH.
  - destruct n as [|n]; [lia|]. rewrite IH; [reflexivity|lia].
Qed.

Lemma str_prefix_starts s : forall n,
  exists rest, s = str_prefix n s ++ rest.
Proof.
  induction s as [|a s IH]; intros n; cbn [str_prefix];
    [now exists ""|].
  destruct (is_continuation a).
  - destruct (IH n) as [rest Hrest]. exists rest.
    change (String a s = String a (str_prefix n s ++ rest)). now f_equal.
  - destruct n as [|n]; [now exists (String a s)|].
    destruct (IH n) as [rest Hrest]. exists rest.
    change (String a s = String a (str_prefix n s ++ rest)). now f_equal.
Qed.

(** X16: the ["database_url"] and ["database_name"] of the health check say
    only whether the two environment variables are set and not empty: the
    values written while the database is inspected (its name among them) are
    overwritten and never returned; the connection status is ["Connected"]
    exactly when there is a database handle. *)
Theorem test_database_configuration db environ :
  test_database db environ !! "database_url"
  = Some (VStr (if env_set environ "DATABASE_URL" then "✅ Set"
                else "❌ Not Set"))
  /\ test_database db environ !! "database_name"
     = Some (VStr (if env_set environ "DATABASE_NAME" then "✅ Set"
                   else "❌ Not Set"))
  /\ test_database db environ !! "connection_status"
     = Some (VStr (match db with
                   | Some _ => "Connected"
                   | None => "Not Connected"
                   end))
  /\ test_database db environ !! "backend" = Some (VStr "✅ Running").
Proof.
  unfold test_database. cbv zeta.
  rewrite lookup_insert_ne, lookup_insert_eq by done.
  rewrite lookup_insert_eq.
  rewrite !(lookup_insert_ne _ "database_name") by done.
  rewrite !(lookup_insert_ne _ "database_url") by done.
  destruct db as [[name [names|e]]|];
    cbn [list_collection_names handle_name];
    repeat split; reflexivity.
Qed.

(** X17: when the collections can be listed, the health check returns at
    most ten of their names, the first ten in the order given, and reports
    the database as connected and working. *)
Theorem test_database_collections handle names environ :
  list_collection_names handle = Ok names ->
  test_database (Some handle) environ !! "collections"
  = Some (VList (VStr <$> take 10 names))
  /\ length (take 10 names) <= 10
  /\ (forall i, i < 10 -> take 10 names !! i = names !! i)
  /\ test_database (Some handle) environ !! "database"
     = Some (VStr "✅ Connected & Working").
Proof.
  intros H. unfold test_database. cbv zeta. rewrite H.
  rewrite !(lookup_insert_ne _ "database_name") by done.
  rewrite !(lookup_insert_ne _ "database_url") by done.
  rewrite lookup_insert_eq.
  rewrite (lookup_insert_ne _ "database" "collections") by done.
  rewrite lookup_insert_eq.
  repeat split.
  - rewrite length_take. lia.
  - intros i Hi. now apply lookup_take_lt.
Qed.

(** X18: when listing the collections raises, the health check still
    answers: its ["database"] text ends with the first 50 characters of the
    exception's text, which are the 50 characters it starts with when it has
    more and all of it when it has at most 50; the collections stay empty,
    and the status stays ["Connected"].  Characters are counted, not the
    bytes that hold them. *)
Theorem test_database_list_failure handle e environ :
  list_collection_names handle = Raise e ->
  test_database (Some handle) environ !! "database"
  = Some (VStr ("⚠️  Connected but Error: " ++ str_prefix 50 (str_exn e)))
  /\ py_len (str_prefix 50 (str_exn e)) = Nat.min 50 (py_len (str_exn e))
  /\ (exists rest, str_exn e = str_prefix 50 (str_exn e) ++ rest)
  /\ (py_len (str_exn e) <= 50 ->
      str_prefix 50 (str_exn e) = str_exn e)
  /\ test_database (Some handle) environ !! "collections" = Some (VList [])
  /\ test_database (Some handle) environ !! "connection_status"
     = Some (VStr "Connected").
Proof.
  intros H. unfold test_database. cbv zeta. rewrite H.
  rewrite !(lookup_insert_ne _ "database_name") by done.
  rewrite !(lookup_insert_ne _ "database_url") by done.
  rewrite lookup_insert_eq.
  split; [reflexivity|].
  split; [apply str_prefix_length|].
  split; [apply str_prefix_starts|].
  split; [apply str_prefix_short|].
  split; reflexivity.
Qed.

(** *** The further theorems at the sample data *)

Lemma normalize_doc_succeeds_iff_witness :
  exists doc', normalize_doc Sample.no_repr Sample.stored_shipment = Ok doc'.
Proof.
  apply (proj2 (normalize_doc_succeeds_iff Sample.no_repr
                  Sample.stored_shipment)).
  by_evaluation.
Defined.

Lemma normalize_doc_keys_witness :
  dom Sample.normalized_shipment = {["_id"]} ∪ dom Sample.stored_shipment.
Proof.
  apply (normalize_doc_keys Sample.no_repr Sample.stored_shipment
           Sample.normalized_shipment).
  by_evaluation.
Defined.

Lemma normalize_doc_no_native_timestamp_witness :
  is_datetime (dict_get Sample.normalized_mixed_events_shipment "eta") = false
  /\ is_datetime
       (dict_get Sample.normalized_mixed_events_shipment "last_update")
     = false.
Proof.
  destruct (normalize_doc_no_native_timestamp Sample.no_repr
              Sample.mixed_events_shipment
              Sample.normalized_mixed_events_shipment)
    as (_ & He & Hl & _).
  - by_evaluation.
  - split; [exact He|exact Hl].
Defined.


Lemma track_shipment_non_mapping_event_witness :
  fst (get_api_track
         (MoreSamples.canned [VDict MoreSamples.broken_events_shipment])
         Sample.no_repr "TRK1" MoreSamples.start)
  = JSONResponse 500
      (VDict {[ "detail" := VStr "'int' object has no attribute 'get'" ]}).
Proof.
  apply (track_shipment_non_mapping_event
           (MoreSamples.canned [VDict MoreSamples.broken_events_shipment])
           Sample.no_repr "TRK1" MoreSamples.start
           MoreSamples.broken_events_shipment [] tt
           [Sample.created_event; VInt 7] (VInt 7)).
  - reflexivity.
  - by_evaluation.
  - reflexivity.
Defined.

Lemma handlers_raise_only_http_witness :
  handled (fst (create_quote (MoreSamples.canned []) Sample.quote_model
                  MoreSamples.start))
  = true
  /\ fst (track_shipment
            (MoreSamples.raising (Interrupt (mkError "SystemExit" "1")))
            Sample.no_repr "TRK1" MoreSamples.start)
     = Raise (Interrupt (mkError "SystemExit" "1")).
Proof.
  split.
  - apply (proj1 (handlers_raise_only_http (MoreSamples.canned [])
                    Sample.clock Sample.no_repr Sample.quote_model
                    Sample.shipment_model "TRK1" MoreSamples.start)).
    intros p. discriminate.
  - destruct (handlers_raise_only_http
                (MoreSamples.raising (Interrupt (mkError "SystemExit" "1")))
                Sample.clock Sample.no_repr Sample.quote_model
                Sample.shipment_model "TRK1" MoreSamples.start)
      as (_ & _ & _ & _ & Htrack).
    apply Htrack. reflexivity.
Defined.

Lemma collaborator_http_exception_witness :
  fst (track_shipment
         (MoreSamples.raising (HTTPException 503 "store is down"))
         Sample.no_repr "TRK1" MoreSamples.start)
  = Raise (HTTPException 503 "store is down")
  /\ fst (create_quote
            (MoreSamples.raising (HTTPException 503 "store is down"))
            Sample.quote_model MoreSamples.start)
     = Raise (HTTPException 500
                (str_exn (HTTPException 503 "store is down"))).
Proof.
  destruct (collaborator_http_exception
              (MoreSamples.raising (HTTPException 503 "store is down"))
              Sample.clock Sample.no_repr 503%Z "store is down"
              Sample.quote_model Sample.shipment_model "TRK1"
              MoreSamples.start)
    as (Ht & Hq & _).
  split; [apply Ht|apply Hq]; reflexivity.
Defined.

Lemma create_shipment_clock_readings_witness :
  w_ticks (snd (create_shipment (MoreSamples.canned []) Sample.clock
                  Sample.shipment_model MoreSamples.start))
  = 0 + 3.
Proof.
  apply (proj1 (create_shipment_clock_readings (MoreSamples.canned [])
                  Sample.clock Sample.shipment_model MoreSamples.start)).
  by_evaluation.
Defined.

Lemma given_status_and_eta_kept_witness :
  exists shipment,
    w_calls (snd (post_api_shipments (MoreSamples.canned []) Sample.clock
                    MoreSamples.eta_lib (VDict MoreSamples.delivered_body)
                    MoreSamples.start))
    = ([] ++ [CreateDocument "shipment" shipment])%list
    /\ shipment !! "status" = Some (VStr "Delivered")
    /\ shipment !! "eta" = Some (VDatetime (mkDatetime 2024 3 5 12 0 0 0)).
Proof.
  destruct (given_status_and_eta_kept (MoreSamples.canned []) Sample.clock
              MoreSamples.eta_lib MoreSamples.delivered_body
              MoreSamples.delivered_model "Delivered"
              (VStr "2024-03-05T12:00:00") (mkDatetime 2024 3 5 12 0 0 0)
              MoreSamples.start)
    as (shipment & Hc & Hs & He & _).
  - by_evaluation.
  - by_evaluation.
  - by_evaluation.
  - discriminate.
  - reflexivity.
  - exists shipment. auto.
Defined.

Lemma invalid_shipment_rejected_witness :
  exists errors,
    errors <> []
    /\ post_api_shipments (MoreSamples.canned []) Sample.clock Sample.lib
         (VDict (<["status" := VNone]> Sample.shipment_body))
         MoreSamples.start
       = (JSONResponse 422
            (VDict {[ "detail" := VList (error_content <$> errors) ]}),
          MoreSamples.start).
Proof.
  apply (invalid_shipment_rejected (MoreSamples.canned []) Sample.clock
           Sample.lib (<["status" := VNone]> Sample.shipment_body)
           MoreSamples.start).
  right. exists VNone. split; [by_evaluation|discriminate].
Defined.


Lemma quote_model_keys_witness :
  Sample.quote_model !! "_id" = None.
Proof.
  destruct (quote_model_keys (MoreSamples.canned []) Sample.lib
              Sample.quote_body Sample.quote_model MoreSamples.start)
    as (_ & _ & Hnone).
  - by_evaluation.
  - apply Hnone. cbn. intuition discriminate.
Defined.


Lemma float_weight_accepted_iff_witness :
  exists v,
    validate_field Sample.lib {[ "weight_kg" := VFloat (S754_zero true) ]}
      (Field "weight_kg" (TOptional TFloat) (Default VNone) (Some 0%Z))
    = inr v.
Proof.
  assert (H : ({[ "weight_kg" := VFloat (S754_zero true) ]}
                 : gmap string value) !! "weight_kg"
              = Some (VFloat (S754_zero true))) by by_evaluation.
  apply (proj2 (float_weight_accepted_iff Sample.lib _ _ H)).
  split; [discriminate|reflexivity].
Defined.

Lemma test_database_collections_witness :
  test_database (Some MoreSamples.working_handle) MoreSamples.environ
  !! "collections"
  = Some (VList (VStr <$> take 10 MoreSamples.twelve_names))
  /\ length (take 10 MoreSamples.twelve_names) <= 10.
Proof.
  destruct (test_database_collections MoreSamples.working_handle
              MoreSamples.twelve_names MoreSamples.environ)
    as (Hc & Hl & _).
  - reflexivity.
  - split; [exact Hc|exact Hl].
Defined.

Lemma test_database_list_failure_witness :
  test_database (Some MoreSamples.broken_handle) MoreSamples.environ
  !! "database"
  = Some (VStr ("⚠️  Connected but Error: "
                ++ str_prefix 50 (err_str Sample.timeout_error)))
  /\ py_len (str_prefix 50 (err_str Sample.timeout_error))
     = Nat.min 50 (py_len (err_str Sample.timeout_error)).
Proof.
  destruct (test_database_list_failure MoreSamples.broken_handle
              (PyError Sample.timeout_error) MoreSamples.environ)
    as (Hd & Hl & _).
  - reflexivity.
  - split; [exact Hd|exact Hl].
Defined.
